(** * Review Harvesting Engine (main.py): a shallow embedding

    The engine drives a browser session through the Selenium interface
    and turns rendered review cards into records.  The browser is an
    external collaborator, so it enters the development as an interface
    (class [Browser]); the functions of main.py are written against that
    interface, in the order and with the control flow of the source.
    A small scripted browser over a DOM tree ([Scripted]) instantiates the
    interface so that every function can be evaluated on concrete pages.

    Conventions.
    - Python [str] values are [string]s; the text a page renders is taken
      to be ASCII, and [strip] removes Python's ASCII whitespace.
    - Python [int] is [Z]; [Optional[int]] is [option Z].
    - A raised exception is the [Raise] case of [result]; [except:] and
      [except Exception] catch every [Raise].
    - Session code lives in the monad [M]: browser state, the events the
      code caused (driver calls, actions, printed lines, the persistence
      hand-off), and a result or an exception. *)

From stdpp Require Import base tactics option list strings pretty numbers.
From Stdlib Require Import ZArith String Ascii List Lia.
From Stdlib Require Strings.Byte.
Import ListNotations.

Local Open Scope string_scope.
Local Open Scope list_scope.
Local Open Scope Z_scope.

(** ** Python values, exceptions, results *)

Inductive exn_kind :=
| NoSuchElementException
| AttributeError
| ValueError
| TypeError
| WebDriverException.   (* any other fault of the session: stale handle,
                           intercepted click, script error, ... *)

Global Instance exn_kind_eq_dec : EqDecision exn_kind.
Proof. solve_decision. Defined.

Record exn := Exn { exn_kind_of : exn_kind; exn_str : string }.

Inductive result (A : Type) :=
| Ok (a : A)
| Raise (e : exn).
Arguments Ok {A} a.
Arguments Raise {A} e.

Global Instance result_ret : MRet result := λ A a, Ok a.
Global Instance result_bind : MBind result := λ A B f m,
  match m with
  | Ok a => f a
  | Raise e => Raise e
  end.

(** What [driver.execute_script] hands back to Python. *)
Inductive pyval :=
| PyNone
| PyInt (z : Z).

Global Instance pyval_eq_dec : EqDecision pyval.
Proof. solve_decision. Defined.

(** Python's [==] on these values. *)
Definition py_eq (a b : pyval) : bool := bool_decide (a = b).

(** ** Strings the way the source uses them *)

(** [str.isspace] on ASCII: TAB..CR, FS..US and the space. *)
Definition is_space (c : ascii) : bool :=
  let n := N_of_ascii c in
  ((9 <=? n) && (n <=? 13) || (28 <=? n) && (n <=? 32))%N.

Fixpoint lstrip (s : string) : string :=
  match s with
  | String c s' => if is_space c then lstrip s' else s
  | EmptyString => EmptyString
  end.

Definition rstrip (s : string) : string := String.rev (lstrip (String.rev s)).

(** [s.strip()] *)
Definition strip (s : string) : string := rstrip (lstrip s).

(** Truth value of a [str]: the empty string is false. *)
Definition truthy (s : string) : bool :=
  match s with
  | EmptyString => false
  | String _ _ => true
  end.

(** Truth value of a list: the empty list is false. *)
Definition nonempty {A} (l : list A) : bool :=
  match l with
  | [] => false
  | _ :: _ => true
  end.

(** [sep.join(parts)] *)
Definition join (sep : string) (parts : list string) : string :=
  String.concat sep parts.

Definition is_digit (c : ascii) : bool :=
  let n := N_of_ascii c in ((48 <=? n) && (n <=? 57))%N.

Fixpoint take_digits (s : string) : string :=
  match s with
  | String c s' => if is_digit c then String c (take_digits s') else EmptyString
  | EmptyString => EmptyString
  end.

(** [re.search(r"\d+", text)]: the leftmost maximal run of digits, and
    [None] when the text has no digit. *)
Fixpoint re_search_digits (text : string) : option string :=
  match text with
  | String c s' =>
      if is_digit c then Some (String c (take_digits s')) else re_search_digits s'
  | EmptyString => None
  end.

Fixpoint int_digits (acc : Z) (s : string) : Z :=
  match s with
  | String c s' => int_digits (10 * acc + (Z.of_N (N_of_ascii c) - 48)) s'
  | EmptyString => acc
  end.

(** [int(m.group())] for a run of digits. *)
Definition int_of_digits (s : string) : Z := int_digits 0 s.

(** [int(re.search(r"\d+", text).group())]: [.group()] on [None] is an
    [AttributeError]. *)
Definition parse_first_int (text : string) : result Z :=
  match re_search_digits text with
  | Some digits => Ok (int_of_digits digits)
  | None => Raise (Exn AttributeError "'NoneType' object has no attribute 'group'")
  end.

(** ** Configuration constants *)

Definition PLACE_TITLE_XPATH : string :=
  "/html/body/div[1]/div[3]/div[8]/div[9]/div/div/div[1]/div[2]/div/div[1]/div/div/div[2]/div/div[1]/div[1]/h1".
Definition REVIEWS_COUNT_XPATH : string :=
  "/html/body/div[1]/div[3]/div[8]/div[9]/div/div/div[1]/div[2]/div/div[1]/div/div/div[2]/div/div[1]/div[2]/div/div[1]/div[2]/span[2]/span/span/span".
Definition REVIEWS_COUNT_XPATH2 : string :=
  "/html/body/div[1]/div[3]/div[8]/div[9]/div/div/div[1]/div[2]/div/div[1]/div/div/div[2]/div/div[1]/div[2]/div/div[1]/div[2]/span[2]/span/span".
Definition REVIEW_TAB_BUTTON_XPATH_2 : string :=
  "/html/body/div[1]/div[3]/div[8]/div[9]/div/div/div[1]/div[2]/div/div[1]/div/div/div[3]/div/div/button[2]/div[2]/div[2]".
Definition REVIEW_TAB_BUTTON_XPATH_3 : string :=
  "/html/body/div[1]/div[3]/div[8]/div[9]/div/div/div[1]/div[2]/div/div[1]/div/div/div[3]/div/div/button[3]/div[2]/div[2]".

Definition CONTAINER_CLASS_RWPXGD : string := "RWPxGd".
Definition SHOW_MORE_BUTTON_CLASS : string := "w8nwRe".
Definition REVIEW_CONTAINER_CLASS : string := "jJc9Ad".
Definition REVIEW_TEXT_CLASS : string := "wiI7pd".
Definition DATE_CLASSES : list string := ["rsqaWe"; "xRkPPb"].
Definition RATING_TEXT_CLASS : string := "fzvQIb".
Definition STAR_CONTAINER_CLASS : string := "kvMYJc".
Definition FILLED_STAR_CLASS : string := "elGi1d".
Definition REVIEW_BLOCK_CLASS : string := "MyEned".
Definition OWNER_BLOCK_CLASS : string := "CDe7pd".
Definition SERVICES_PARENT_CLASS : string := "PBK6be".
Definition SERVICES_ENTRY_CLASS : string := "RfDO5c".

(** ** The browser session *)

Inductive By :=
| CLASS_NAME (cls : string)
| XPATH (path : string)
| TAG_NAME (tag : string).

Global Instance By_eq_dec : EqDecision By.
Proof. solve_decision. Defined.

(** The part of Selenium the engine relies on.  [B] is the state of the
    session (the page included), [E] the element handles.  Lookups and
    text reads observe the state; actions may change it and may fail. *)
Class Browser (B E : Type) := {
  driver_get : string → B → result unit * B;
  driver_find_element : B → By → result E;
  driver_find_elements : B → By → result (list E);
  driver_execute_script : string → list E → B → result pyval * B;
  driver_quit : B → result unit * B;
  element_find_element : B → E → By → result E;
  element_find_elements : B → E → By → result (list E);
  element_text : B → E → result string;
  element_click : E → B → result unit * B;
  time_sleep : Z → B → B   (* milliseconds *)
}.

(** One harvested review (the dict built at the end of the card loop). *)
Record ReviewRecord := {
  date : string;
  rating : string;
  text : string;
  owner : option string
}.

(** ** Field Extractor: one card of [extract_reviews_data]

    Reads only; [driver] is the session state the snapshot was taken in. *)
Section FieldExtractor.
Context {B E : Type} `{Browser B E}.
Variable driver : B.

(** [scope.find_element(By.CLASS_NAME, cls).text.strip()] *)
Definition stripped_text_of (scope : E) (cls : string) : result string :=
  el ← element_find_element driver scope (CLASS_NAME cls);
  t ← element_text driver el;
  mret (strip t).

(** 1) user review text, looked up under the review block only *)
Definition extract_review_text (card : E) : result string :=
  review_block ← element_find_element driver card (CLASS_NAME REVIEW_BLOCK_CLASS);
  stripped_text_of review_block REVIEW_TEXT_CLASS.

(** 2) the loop over the service entries; [services] is the list being
    appended to, and a fault leaves it as it is ([except: pass]). *)
Fixpoint services_loop (entries : list E) (services : list string) : list string :=
  match entries with
  | [] => services
  | entry :: rest =>
      match stripped_text_of entry SERVICES_ENTRY_CLASS with
      | Ok svc =>
          if truthy svc then services_loop rest (services ++ [svc])
          else services_loop rest services
      | Raise _ => services
      end
  end.

Definition extract_services (card : E) : list string :=
  match
    svc_wrapper ← element_find_element driver card (CLASS_NAME SERVICES_PARENT_CLASS);
    element_find_elements driver svc_wrapper (XPATH "./div[position()>1]")
  with
  | Ok entries => services_loop entries []
  | Raise _ => []
  end.

Definition services_suffix (services : list string) : string :=
  " (Services: " +:+ join "; " services +:+ ")".

(** 3) the loop over [DATE_CLASSES]: [break] on the first class whose
    lookup and read do not fault, [continue] on a fault. *)
Fixpoint date_loop (card : E) (classes : list string) (review_date : option string)
  : option string :=
  match classes with
  | [] => review_date
  | cls :: rest =>
      match stripped_text_of card cls with
      | Ok d => Some d
      | Raise _ => date_loop card rest review_date
      end
  end.

Definition extract_date (card : E) : option string :=
  date_loop card DATE_CLASSES None.

(** [not review_date] *)
Definition date_missing (review_date : option string) : bool :=
  match review_date with
  | None => true
  | Some d => negb (truthy d)
  end.

(** 4) rating: direct text, else filled stars out of five, else "N/A" *)
Definition count_stars (card : E) : result string :=
  container ← element_find_element driver card (CLASS_NAME STAR_CONTAINER_CLASS);
  stars ← element_find_elements driver container (CLASS_NAME FILLED_STAR_CLASS);
  mret (pretty (length stars) +:+ "/5").

Definition extract_rating (card : E) : string :=
  match stripped_text_of card RATING_TEXT_CLASS with
  | Ok rating => rating
  | Raise _ =>
      match count_stars card with
      | Ok rating => rating
      | Raise _ => "N/A"
      end
  end.

(** 5) owner response *)
Definition extract_owner (card : E) : option string :=
  match
    owner_block ← element_find_element driver card (CLASS_NAME OWNER_BLOCK_CLASS);
    stripped_text_of owner_block REVIEW_TEXT_CLASS
  with
  | Ok owner_text => Some owner_text
  | Raise _ => None
  end.

(** The body of the card loop.  [Ok None] is [continue] (the card is
    skipped), [Ok (Some r)] is the record appended to [reviews]. *)
Definition extract_card (card : E) : result (option ReviewRecord) :=
  match extract_review_text card with
  | Raise _ => Ok None
  | Ok review_text =>
      let services := extract_services card in
      let review_text :=
        if nonempty services then review_text +:+ services_suffix services
        else review_text in
      let review_date := extract_date card in
      if date_missing review_date then Ok None
      else
        let rating := extract_rating card in
        let owner_text := extract_owner card in
        Ok (Some {| date := default "" review_date;
                    rating := rating;
                    text := review_text;
                    owner := owner_text |})
  end.
End FieldExtractor.

(** ** Session code: state, events and exceptions *)

Inductive event (E : Type) :=
| EvGet (url : string)
| EvFindElement (by_ : By)
| EvFindElements (by_ : By)
| EvScript (script : string) (args : list E) (returned : result pyval)
| EvClick (el : E)
| EvSleep (ms : Z)
| EvQuit
| EvPrint (line : string)
| EvSave (reviews : list ReviewRecord) (title : string).
Arguments EvGet {E} url.
Arguments EvFindElement {E} by_.
Arguments EvFindElements {E} by_.
Arguments EvScript {E} script args returned.
Arguments EvClick {E} el.
Arguments EvSleep {E} ms.
Arguments EvQuit {E}.
Arguments EvPrint {E} line.
Arguments EvSave {E} reviews title.

(** The scripts handed to [execute_script] (line breaks and indentation
    of the source condensed to single spaces). *)
Definition SCROLL_SCRIPT : string :=
  "const pane = Array.from(document.querySelectorAll('div')).find(div => { const s = window.getComputedStyle(div).overflowY; return (s === 'auto' || s === 'scroll') && div.scrollHeight > div.clientHeight; }); if (pane) { pane.scrollTop = pane.scrollHeight; }".
Definition MEASURE_SCRIPT : string :=
  "const pane = Array.from(document.querySelectorAll('div')).find(div => { const s = window.getComputedStyle(div).overflowY; return (s === 'auto' || s === 'scroll') && div.scrollHeight > div.clientHeight; }); return pane ? pane.scrollHeight : 0;".
Definition CLICK_SCRIPT : string := "arguments[0].click();".

(** ** Pure pieces of the session code *)

(** [a // b] where [a] may be [None]: [None // 10] is a [TypeError]. *)
Definition floordiv (a : option Z) (b : Z) : result Z :=
  match a with
  | Some n => Ok (n `div` b)
  | None => Raise (Exn TypeError "unsupported operand type(s) for //: 'NoneType' and 'int'")
  end.

(** [batches = max((total_reviews // 10) + 2, 5)] *)
Definition compute_batches (total_reviews : option Z) : result Z :=
  q ← floordiv total_reviews 10;
  mret (Z.max (q + 2) 5).

(** [range(n)] *)
Definition range (n : Z) : list nat := seq 0 (Z.to_nat n).

(** [f"No more new reviews after {i + 1} scrolls."] *)
Definition no_more_line (scrolls : nat) : string :=
  "No more new reviews after " +:+ pretty scrolls +:+ " scrolls.".

(** The XPath [click_review_tab] picks from the number of buttons. *)
Definition review_tab_xpath {E} (buttons : list E) : string :=
  if bool_decide (length buttons = 3%nat) then REVIEW_TAB_BUTTON_XPATH_2
  else REVIEW_TAB_BUTTON_XPATH_3.

(** ["=" * 60] and the newline of the banner. *)
Definition rule : string := String.concat "" (replicate 60 "=").
Definition NL : string := String (ascii_of_nat 10) "".

(** [if total_reviews:] on an [Optional[int]]: [None] and [0] are false. *)
Definition truthy_count (total_reviews : option Z) : bool :=
  match total_reviews with
  | None => false
  | Some n => negb (n =? 0)
  end.

Section Session.
Context {B E : Type} `{Browser B E}.

Definition M (A : Type) : Type := B → result A * B * list (event E).

Global Instance M_ret : MRet M := λ A a b, (Ok a, b, []).
Global Instance M_bind : MBind M := λ A C f m b,
  match m b with
  | (Ok a, b1, l1) =>
      match f a b1 with
      | (r, b2, l2) => (r, b2, l1 ++ l2)
      end
  | (Raise e, b1, l1) => (Raise e, b1, l1)
  end.

(** Primitive steps. *)
Definition emit (ev : event E) : M unit := λ b, (Ok (), b, [ev]).
Definition print (line : string) : M unit := emit (EvPrint line).
Definition lift {A} (r : result A) : M A := λ b, (r, b, []).
Definition observe {A} (f : B → result A) : M A := λ b, (f b, b, []).

Definition get (url : string) : M unit := λ b,
  let '(r, b1) := driver_get url b in (r, b1, [EvGet url]).
Definition find_element (by_ : By) : M E := λ b,
  (driver_find_element b by_, b, [EvFindElement by_]).
Definition find_elements (by_ : By) : M (list E) := λ b,
  (driver_find_elements b by_, b, [EvFindElements by_]).
Definition execute_script (script : string) (args : list E) : M pyval := λ b,
  let '(r, b1) := driver_execute_script script args b in
  (r, b1, [EvScript script args r]).
Definition quit : M unit := λ b,
  let '(r, b1) := driver_quit b in (r, b1, [EvQuit]).
Definition click (el : E) : M unit := λ b,
  let '(r, b1) := element_click el b in (r, b1, [EvClick el]).
Definition sleep (ms : Z) : M unit := λ b, (Ok (), time_sleep ms b, [EvSleep ms]).
Definition text_of (el : E) : M string := observe (λ b, element_text b el).
Definition sub_elements (el : E) (by_ : By) : M (list E) :=
  observe (λ b, element_find_elements b el by_).

(** [try: body except: handler] and [except Exception as e]. *)
Definition try_except {A} (body : M A) (handler : exn → M A) : M A := λ b,
  match body b with
  | (Ok a, b1, l1) => (Ok a, b1, l1)
  | (Raise e, b1, l1) =>
      match handler e b1 with
      | (r, b2, l2) => (r, b2, l1 ++ l2)
      end
  end.

(** [except (K1, K2, ...) as e]: other exceptions pass through. *)
Definition try_except_only {A} (kinds : list exn_kind) (body : M A)
    (handler : exn → M A) : M A := λ b,
  match body b with
  | (Ok a, b1, l1) => (Ok a, b1, l1)
  | (Raise e, b1, l1) =>
      if bool_decide (exn_kind_of e ∈ kinds) then
        match handler e b1 with
        | (r, b2, l2) => (r, b2, l1 ++ l2)
        end
      else (Raise e, b1, l1)
  end.

(** [try: body finally: cleanup] *)
Definition try_finally {A} (body : M A) (cleanup : M unit) : M A := λ b,
  match body b with
  | (r, b1, l1) =>
      match cleanup b1 with
      | (Ok _, b2, l2) => (r, b2, l1 ++ l2)
      | (Raise e, b2, l2) => (Raise e, b2, l1 ++ l2)
      end
  end.

(** *** navigate_to_url *)
Definition navigate_to_url (url : string) : M unit :=
  _ ← get url;
  sleep 3000.

(** *** get_place_title *)
Definition get_place_title : M string :=
  try_except
    (title_element ← find_element (XPATH PLACE_TITLE_XPATH);
     t ← text_of title_element;
     let title := strip t in
     mret (if truthy title then title else "Unknown Place"))
    (λ e,
     _ ← print ("Failed to extract place title: " +:+ exn_str e);
     mret "Unknown Place").

(** *** get_total_reviews *)
Definition read_count (xpath : string) : M Z :=
  element ← find_element (XPATH xpath);
  _ ← click element;
  _ ← sleep 2000;
  text ← text_of element;
  number ← lift (parse_first_int text);
  _ ← print ("Found " +:+ pretty number +:+ " reviews.");
  mret number.

Definition get_total_reviews : M (option Z) :=
  try_except_only [NoSuchElementException; AttributeError; ValueError]
    (try_except
       (number ← read_count REVIEWS_COUNT_XPATH; mret (Some number))
       (λ _, number ← read_count REVIEWS_COUNT_XPATH2; mret (Some number)))
    (λ e,
     _ ← print ("Failed to extract number of reviews: " +:+ exn_str e);
     mret None).

(** *** click_review_tab *)
Definition click_review_tab : M unit :=
  try_except
    (container ← find_element (CLASS_NAME CONTAINER_CLASS_RWPXGD);
     buttons ← sub_elements container (TAG_NAME "button");
     review_button ← find_element (XPATH (review_tab_xpath buttons));
     _ ← click review_button;
     sleep 2000)
    (λ e, print ("Review tab not found or already open: " +:+ exn_str e)).

(** *** scroll_to_load_reviews *)

Fixpoint scroll_loop (iterations : list nat) (last_height : pyval) : M unit :=
  match iterations with
  | [] => mret ()
  | i :: rest =>
      _ ← execute_script SCROLL_SCRIPT [];
      _ ← sleep 2000;
      new_height ← execute_script MEASURE_SCRIPT [];
      if py_eq new_height last_height then
        print (no_more_line (i + 1)%nat)     (* break *)
      else
        scroll_loop rest new_height
  end.

Definition scroll_to_load_reviews (total_reviews : option Z) : M unit :=
  batches ← lift (compute_batches total_reviews);
  _ ← scroll_loop (range batches) (PyInt 0);
  print "Finished scrolling. All reviews should be loaded.".

(** *** expand_show_more_buttons *)
Fixpoint expand_loop (buttons : list E) : M unit :=
  match buttons with
  | [] => mret ()
  | btn :: rest =>
      _ ← try_except
            (_ ← execute_script CLICK_SCRIPT [btn];
             sleep 200)
            (λ e, print ("Could not expand review: " +:+ exn_str e));
      expand_loop rest
  end.

Definition expand_show_more_buttons : M unit :=
  try_except
    (buttons ← find_elements (CLASS_NAME SHOW_MORE_BUTTON_CLASS);
     expand_loop buttons)
    (λ e, print ("No 'Show more' buttons found: " +:+ exn_str e)).

(** *** extract_reviews_data *)
Fixpoint cards_loop (cards : list E) (reviews : list ReviewRecord)
  : M (list ReviewRecord) :=
  match cards with
  | [] => mret reviews
  | card :: rest =>
      outcome ← try_except
                  (observe (λ driver, extract_card driver card))
                  (λ e,
                   _ ← print ("Skipped one card due to: " +:+ exn_str e);
                   mret None);
      match outcome with
      | Some record => cards_loop rest (reviews ++ [record])
      | None => cards_loop rest reviews
      end
  end.

Definition extract_reviews_data : M (list ReviewRecord) :=
  cards ← find_elements (CLASS_NAME REVIEW_CONTAINER_CLASS);
  cards_loop cards [].

(** *** save_reviews_to_file

    The hand-off to persistence, visualisation and reporting; what
    happens behind it belongs to other modules and is recorded as one
    event. *)
Definition save_reviews_to_file (reviews : list ReviewRecord) (title : string) : M unit :=
  emit (EvSave reviews title).

(** *** main *)
(** [driver] is the session [initialize_driver()] returned; [URL] is the
    module-level constant. *)
Definition main (URL : string) : M unit :=
  try_finally
    (_ ← navigate_to_url URL;
     place_title ← get_place_title;
     _ ← print (NL +:+ rule);
     _ ← print ("Place: " +:+ place_title);
     _ ← print (rule +:+ NL);
     total_reviews ← get_total_reviews;
     if truthy_count total_reviews then
       _ ← click_review_tab;
       _ ← scroll_to_load_reviews total_reviews;
       _ ← expand_show_more_buttons;
       reviews_data ← extract_reviews_data;
       _ ← quit;
       save_reviews_to_file reviews_data place_title
     else
       print "No reviews found.")
    quit.
End Session.

(** ** Reading a run *)

(** What one card contributes to the harvested sequence. *)
Definition emitted {B E} `{Browser B E} (driver : B) (card : E) : option ReviewRecord :=
  match extract_card driver card with
  | Ok outcome => outcome
  | Raise _ => None
  end.

(** The extents the measuring script returned, in the order measured. *)
Definition measurements {E} (l : list (event E)) : list pyval :=
  omap (λ ev,
        match ev with
        | EvScript script _ (Ok v) =>
            if bool_decide (script = MEASURE_SCRIPT) then Some v else None
        | _ => None
        end) l.

(** How many times the scrolling script was run. *)
Definition scrolls {E} (l : list (event E)) : nat :=
  length (filter (λ ev,
                  match ev with
                  | EvScript script _ _ => bool_decide (script = SCROLL_SCRIPT)
                  | _ => false
                  end) l).

(** The extent known after iteration [k]; before the loop ([k = 0]) it is
    the initial [last_height = 0]. *)
Definition extent_after (hs : list pyval) (k : nat) : pyval :=
  match k with
  | O => PyInt 0
  | S j => nth j hs (PyInt 0)
  end.

(** The loop broke in iteration [k]. *)
Definition halted_after {E} (l : list (event E)) (k : nat) : Prop :=
  In (EvPrint (no_more_line k)) l.

Definition clicked {E} (l : list (event E)) : list E :=
  omap (λ ev, match ev with EvClick el => Some el | _ => None end) l.

Definition looked_up {E} (l : list (event E)) : list By :=
  omap (λ ev, match ev with EvFindElement by_ => Some by_ | _ => None end) l.

(** The date rule in the words of the specification, for comparison with
    [extract_date]: the first class, in order, that yields non-empty
    text. *)
Fixpoint first_nonempty_date {B E} `{Browser B E} (driver : B) (card : E)
    (classes : list string) : option string :=
  match classes with
  | [] => None
  | cls :: rest =>
      match stripped_text_of driver card cls with
      | Ok d => if truthy d then Some d else first_nonempty_date driver card rest
      | Raise _ => first_nonempty_date driver card rest
      end
  end.

(** The texts of the entries that were read before the first fault. *)
Fixpoint read_until_fault {A} (outcomes : list (result A)) : list A :=
  match outcomes with
  | Ok a :: rest => a :: read_until_fault rest
  | _ => []
  end.

(** The events of one iteration of the scroll loop up to and including
    the measurement. *)
Definition iteration_events {E} (v : pyval) (measured : result pyval) : list (event E) :=
  [EvScript SCROLL_SCRIPT [] (Ok v); EvSleep 2000; EvScript MEASURE_SCRIPT [] measured].

(** Events that only tab activation, scrolling, text expansion,
    extraction and the persistence hand-off produce: a lookup by class
    name, an enumeration of elements, a script, a save.  Navigation, the
    title lookup and the review-count probe use none of them. *)
Definition harvest_step {E} (ev : event E) : bool :=
  match ev with
  | EvFindElement (CLASS_NAME _) => true
  | EvFindElements _ => true
  | EvScript _ _ _ => true
  | EvSave _ _ => true
  | _ => false
  end.

(** The three banner lines printed after the title lookup. *)
Definition banner {E} (place_title : string) : list (event E) :=
  [EvPrint (NL +:+ rule); EvPrint ("Place: " +:+ place_title); EvPrint (rule +:+ NL)].

(** ** A scripted browser

    Pages are DOM trees; each node carries the text the driver would
    render for it.  Absolute XPaths are resolved through a table, the one
    relative XPath the engine uses is interpreted on the children, and
    the extents the measuring script reports are read off a script of
    successive values (0 once it is used up: no scrollable pane). *)
Module Scripted.

#[local] Set Warnings "-register-all".

Inductive Node :=
| Elem (tag : string) (classes : list string) (rendered : string) (kids : list Node).

Definition tag_of (n : Node) : string := let 'Elem t _ _ _ := n in t.
Definition classes_of (n : Node) : list string := let 'Elem _ c _ _ := n in c.
Definition rendered_of (n : Node) : string := let 'Elem _ _ r _ := n in r.
Definition kids_of (n : Node) : list Node := let 'Elem _ _ _ k := n in k.

(** Descendants in document order. *)
Fixpoint descendants (n : Node) : list Node :=
  match n with
  | Elem _ _ _ kids => flat_map (λ k, k :: descendants k) kids
  end.

Record Page := {
  document : Node;
  at_xpath : list (string * Node);
  extents : list Z
}.

Definition matches (by_ : By) (n : Node) : bool :=
  match by_ with
  | CLASS_NAME cls => bool_decide (cls ∈ classes_of n)
  | TAG_NAME t => bool_decide (tag_of n = t)
  | XPATH _ => false
  end.

Definition not_found : exn := Exn NoSuchElementException "Unable to locate element".

Definition first_of (l : list Node) : result Node :=
  match l with
  | n :: _ => Ok n
  | [] => Raise not_found
  end.

Definition all_in_document (p : Page) (by_ : By) : list Node :=
  match by_ with
  | XPATH path => map snd (filter (λ e, bool_decide (fst e = path)) (at_xpath p))
  | _ => filter (λ n, matches by_ n) (descendants (document p))
  end.

Definition all_under (n : Node) (by_ : By) : list Node :=
  match by_ with
  | XPATH path =>
      if bool_decide (path = "./div[position()>1]")
      then tail (filter (λ k, bool_decide (tag_of k = "div")) (kids_of n))
      else []
  | _ => filter (λ d, matches by_ d) (descendants n)
  end.

Definition run_script (script : string) (p : Page) : result pyval * Page :=
  if bool_decide (script = MEASURE_SCRIPT) then
    match extents p with
    | h :: rest =>
        (Ok (PyInt h), {| document := document p; at_xpath := at_xpath p; extents := rest |})
    | [] => (Ok (PyInt 0), p)
    end
  else (Ok PyNone, p).

Global Instance scripted_browser : Browser Page Node := {|
  driver_get := λ _ p, (Ok (), p);
  driver_find_element := λ p by_, first_of (all_in_document p by_);
  driver_find_elements := λ p by_, Ok (all_in_document p by_);
  driver_execute_script := λ script _ p, run_script script p;
  driver_quit := λ p, (Ok (), p);
  element_find_element := λ _ n by_, first_of (all_under n by_);
  element_find_elements := λ _ n by_, Ok (all_under n by_);
  element_text := λ _ n, Ok (rendered_of n);
  element_click := λ _ p, (Ok (), p);
  time_sleep := λ _ p, p
|}.

(** Building blocks for pages. *)
Definition span (cls text : string) : Node := Elem "span" [cls] text [].
Definition div (cls : string) (kids : list Node) : Node := Elem "div" [cls] "" kids.

Definition review_block (body : string) : Node :=
  div REVIEW_BLOCK_CLASS [span REVIEW_TEXT_CLASS body].
Definition owner_block (reply : string) : Node :=
  div OWNER_BLOCK_CLASS [span REVIEW_TEXT_CLASS reply].
Definition services_block (entries : list string) : Node :=
  div SERVICES_PARENT_CLASS
    (Elem "div" [] "Services" [] ::
     map (λ s, Elem "div" [] "" [span SERVICES_ENTRY_CLASS s]) entries).
Definition stars (filled : nat) : Node :=
  div STAR_CONTAINER_CLASS (replicate filled (span FILLED_STAR_CLASS "")).
Definition card (parts : list Node) : Node := div REVIEW_CONTAINER_CLASS parts.

Definition page_of (cards : list Node) : Page :=
  {| document := Elem "body" [] "" cards; at_xpath := []; extents := [] |}.

(** The two cards of the end-to-end scenario: one complete card, one
    without review text. *)
Definition full_card : Node :=
  card [ stars 4;
         span "rsqaWe" "2 days ago";
         review_block "Great food";
         services_block ["Delivery"];
         owner_block "Thanks!" ].
Definition textless_card : Node :=
  card [ stars 5; span "rsqaWe" "a week ago" ].

(** Further cards. *)

(** A review block whose text element renders only blanks. *)
Definition blank_text_card : Node :=
  card [ stars 5; span "rsqaWe" "a week ago"; review_block "   " ].

(** The first date variant is present but empty, the second carries
    the date. *)
Definition empty_first_date_card : Node :=
  card [ stars 3; span "rsqaWe" ""; span "xRkPPb" "2 days ago";
         review_block "Nice place" ].

(** Only the second date variant is present. *)
Definition second_variant_card : Node :=
  card [ stars 2; span "xRkPPb" "3 weeks ago"; review_block "Too loud" ].

(** Text and rating, no date element at all. *)
Definition dateless_card : Node :=
  card [ stars 5; review_block "Lovely" ].

(** A direct textual rating. *)
Definition rated_card : Node :=
  card [ span RATING_TEXT_CLASS "5.0"; span "rsqaWe" "a month ago";
         review_block "Superb" ].

(** Neither rating element. *)
Definition unrated_card : Node :=
  card [ span "rsqaWe" "a year ago"; review_block "Fine" ].

(** Three service entries, the middle one blank. *)
Definition services_card : Node :=
  card [ stars 4; span "rsqaWe" "4 days ago"; review_block "Quick and friendly";
         services_block ["Dine in"; "  "; "Takeaway"] ].

(** Pages for the session code. *)

Definition place_url : string := "https://www.google.com/maps/place/Cafe?hl=en".

(** No count element under either XPath. *)
Definition countless_page : Page := page_of [full_card].

(** The count element reads "0 reviews". *)
Definition zero_count_page : Page :=
  {| document := Elem "body" [] "" [];
     at_xpath := [(PLACE_TITLE_XPATH, Elem "h1" [] "Cafe" []);
                  (REVIEWS_COUNT_XPATH, Elem "span" [] "0 reviews" [])];
     extents := [] |}.

(** A tab container with [n] buttons; the two controls the XPaths
    address are the labels of the second and of the third button. *)
Definition second_tab : Node := Elem "div" [] "Reviews" [].
Definition third_tab : Node := Elem "div" [] "About" [].
Definition tab_page (n : nat) : Page :=
  {| document :=
       Elem "body" [] ""
         [div CONTAINER_CLASS_RWPXGD (replicate n (Elem "button" [] "" []))];
     at_xpath := [(REVIEW_TAB_BUTTON_XPATH_2, second_tab);
                  (REVIEW_TAB_BUTTON_XPATH_3, third_tab)];
     extents := [] |}.

(** The pane grows twice, then stalls. *)
Definition stalling_page : Page :=
  {| document := Elem "body" [] "" [];
     at_xpath := [];
     extents := [400; 900; 900; 1200] |}.

Definition two_cards_page : Page := page_of [full_card; textless_card].
Definition dateless_page : Page := page_of [full_card; dateless_card].

End Scripted.


(** * More of the code: set-up, listing, persistence, analysis *)

(** ** The URL set-up at the top of main.py *)

Fixpoint starts_with (sub s : string) : bool :=
  match sub with
  | EmptyString => true
  | String a sub' =>
      match s with
      | EmptyString => false
      | String c s' => bool_decide (a = c) && starts_with sub' s'
      end
  end.

Fixpoint find_from (sub s : string) (i : Z) : Z :=
  if starts_with sub s then i
  else
    match s with
    | EmptyString => -1
    | String _ s' => find_from sub s' (i + 1)
    end.

(** [s.find(sub)]: the lowest index at which [sub] occurs, -1 if none. *)
Definition str_find (s sub : string) : Z := find_from sub s 0.

Fixpoint take_chars (n : nat) (s : string) : string :=
  match n, s with
  | S n', String c s' => String c (take_chars n' s')
  | _, _ => EmptyString
  end.

(** [s[0:stop]]: a negative [stop] counts from the end, and both ends are
    clamped to the string. *)
Definition slice_to (s : string) (stop : Z) : string :=
  let len := Z.of_nat (String.length s) in
  let stop := if stop <? 0 then Z.max 0 (stop + len) else Z.min stop len in
  take_chars (Z.to_nat stop) s.

(** [URL = url[0:url.find("?entry=t"):] + "?hl=en"], [url] being the
    address the redirects end at. *)
Definition normalize_url (url : string) : string :=
  slice_to url (str_find url "?entry=t") +:+ "?hl=en".

(** ** Shapes of strings *)

(** Neither the first nor the last character is whitespace. *)
Definition trimmed (s : string) : Prop :=
  (∀ c t, s = String c t → is_space c = false) ∧
  (∀ t c, s = t +:+ String c "" → is_space c = false).

Definition all_spaces (s : string) : bool := forallb is_space (list_ascii_of_string s).
Definition all_digits (s : string) : bool := forallb is_digit (list_ascii_of_string s).
Definition no_digit (s : string) : bool :=
  forallb (λ c, negb (is_digit c)) (list_ascii_of_string s).
Definition starts_with_digit (s : string) : bool :=
  match s with
  | String c _ => is_digit c
  | EmptyString => false
  end.

(** ** Reading more of a run *)

(** The buttons the expansion script was run on, in order. *)
Definition script_clicks {E} (l : list (event E)) : list E :=
  omap (λ ev,
        match ev with
        | EvScript script [btn] _ =>
            if bool_decide (script = CLICK_SCRIPT) then Some btn else None
        | _ => None
        end) l.

Definition printed {E} (l : list (event E)) : list string :=
  omap (λ ev, match ev with EvPrint line => Some line | _ => None end) l.

(** Quitting the driver and handing over to persistence. *)
Definition closing_step {E} (ev : event E) : bool :=
  match ev with
  | EvQuit => true
  | EvSave _ _ => true
  | _ => false
  end.

(** The [try] block of [main], as it stands in [main]. *)
Definition main_body {B E} `{Browser B E} (URL : string) : M unit :=
  _ ← navigate_to_url URL;
  place_title ← get_place_title;
  _ ← print (NL +:+ rule);
  _ ← print ("Place: " +:+ place_title);
  _ ← print (rule +:+ NL);
  total_reviews ← get_total_reviews;
  if truthy_count total_reviews then
    _ ← click_review_tab;
    _ ← scroll_to_load_reviews total_reviews;
    _ ← expand_show_more_buttons;
    reviews_data ← extract_reviews_data;
    _ ← quit;
    save_reviews_to_file reviews_data place_title
  else
    print "No reviews found.".

(** How the events of the [try] block of [main] can end: without any
    closing step, with a quit, or with a quit followed by the hand-off of
    reviews and a title that satisfy [P]. *)
Definition closing_shape {E} (P : list ReviewRecord → string → Prop)
    (l : list (event E)) : Prop :=
  Forall (λ ev, closing_step ev = false) l ∨
  (∃ pre, l = pre ++ [EvQuit] ∧ Forall (λ ev, closing_step ev = false) pre) ∨
  (∃ pre reviews title,
     l = pre ++ [EvQuit; EvSave reviews title] ∧
     Forall (λ ev, closing_step ev = false) pre ∧ P reviews title).

(** The pass has come to the end of the extraction: navigation
    succeeded, the probe returned a count that is not 0, tab activation,
    scrolling and expansion have run in this order, and the cards were
    enumerated in the session [b6] that expansion left.  [l] holds the
    events up to there. *)
Definition pass_to_harvest {B E} `{Browser B E} (URL : string) (b : B)
    (place_title : string) (b6 : B) (l : list (event E)) (cards : list E) : Prop :=
  ∃ b1 l1 b2 l2 n b3 l3 b4 l4 b5 l5 l6,
    navigate_to_url URL b = (Ok (), b1, l1) ∧
    get_place_title b1 = (Ok place_title, b2, l2) ∧
    get_total_reviews b2 = (Ok (Some n), b3, l3) ∧ n ≠ 0 ∧
    click_review_tab b3 = (Ok (), b4, l4) ∧
    scroll_to_load_reviews (Some n) b4 = (Ok (), b5, l5) ∧
    expand_show_more_buttons b5 = (Ok (), b6, l6) ∧
    driver_find_elements b6 (CLASS_NAME REVIEW_CONTAINER_CLASS) = Ok cards ∧
    l = l1 ++ l2 ++ banner place_title ++ l3 ++ l4 ++ l5 ++ l6
        ++ [EvFindElements (CLASS_NAME REVIEW_CONTAINER_CLASS)].

(** A card whose second service entry has no entry element. *)
Definition broken_services_card : Scripted.Node :=
  Scripted.card
    [ Scripted.stars 4; Scripted.span "rsqaWe" "5 days ago";
      Scripted.review_block "Friendly staff";
      Scripted.div SERVICES_PARENT_CLASS
        [ Scripted.Elem "div" [] "Services" [];
          Scripted.Elem "div" [] "" [Scripted.span SERVICES_ENTRY_CLASS "Dine in"];
          Scripted.Elem "div" [] "" [];
          Scripted.Elem "div" [] "" [Scripted.span SERVICES_ENTRY_CLASS "Takeaway"] ] ].

(** ** More string operations *)

(** [s.split(sep)] for a one-character separator: never an empty list. *)
Fixpoint split_on (sep : ascii) (s : string) : list string :=
  match s with
  | EmptyString => [EmptyString]
  | String c s' =>
      if bool_decide (c = sep) then EmptyString :: split_on sep s'
      else
        match split_on sep s' with
        | field :: fields => String c field :: fields
        | [] => [String c EmptyString]
        end
  end.

(** [fields[0]] and [fields[-1]] of a split. *)
Definition first_field (fields : list string) : string := hd "" fields.
Definition last_field (fields : list string) : string := List.last fields "".

Definition lower_char (c : ascii) : ascii :=
  let n := N_of_ascii c in
  if ((65 <=? n) && (n <=? 90))%N then ascii_of_N (n + 32) else c.

(** [s.lower()] on ASCII *)
Fixpoint str_lower (s : string) : string :=
  match s with
  | EmptyString => EmptyString
  | String c s' => String (lower_char c) (str_lower s')
  end.

(** [s.replace(old, new)] for single characters *)
Fixpoint replace_char (old new : ascii) (s : string) : string :=
  match s with
  | EmptyString => EmptyString
  | String c s' =>
      String (if bool_decide (c = old) then new else c) (replace_char old new s')
  end.

Definition has_char (c : ascii) (s : string) : bool :=
  existsb (λ a, bool_decide (a = c)) (list_ascii_of_string s).

(** ** The file names of save_reviews_to_file *)

(** [f"{title.replace(' ', '_')}_reviews.json"] *)
Definition reviews_filename (title : string) : string :=
  replace_char " " "_" title +:+ "_reviews.json".

(** [f"{title.replace(' ', '_')}_visual.png"] *)
Definition visual_path (title : string) : string :=
  replace_char " " "_" title +:+ "_visual.png".

(** ** display_reviews *)

Definition DASH_RULE : string := String.concat "" (replicate 60 "-").

(** [review.get('owner')] as a condition *)
Definition has_reply (review : ReviewRecord) : bool :=
  match owner review with
  | Some reply => truthy reply
  | None => false
  end.

Section Listing.
Context {B E : Type} `{Browser B E}.

Fixpoint display_loop (idx : nat) (reviews_data : list ReviewRecord)
  : M (B:=B) (E:=E) unit :=
  match reviews_data with
  | [] => mret ()
  | review :: rest =>
      _ ← print (pretty idx +:+ ". Date:   " +:+ date review);
      _ ← print ("   Rating: " +:+ rating review);
      _ ← print ("   Review: " +:+ text review);
      _ ← (if has_reply review
           then print ("   Owner:  " +:+ default "" (owner review))
           else mret ());
      _ ← print DASH_RULE;
      display_loop (S idx) rest
  end.

(** [for idx, review in enumerate(reviews_data, start=1)] *)
Definition display_reviews (reviews_data : list ReviewRecord) : M (B:=B) (E:=E) unit :=
  display_loop 1 reviews_data.
End Listing.

(** ** pollinations.py: the image analysis *)

(** [base64.b64encode(data).decode('utf-8')] *)
Definition B64_ALPHABET : string :=
  "ABCDEFGHIJKLMNOPQRSTUVWXYZabcdefghijklmnopqrstuvwxyz0123456789+/".

Definition b64_char (n : N) : ascii :=
  match String.get (N.to_nat n) B64_ALPHABET with
  | Some c => c
  | None => "="%char
  end.

Fixpoint b64encode (data : list Byte.byte) : string :=
  match data with
  | [] => ""
  | [a] =>
      let n := (Byte.to_N a * 65536)%N in
      String (b64_char (n / 262144)) (String (b64_char (n / 4096 mod 64)) "==")
  | [a; b] =>
      let n := (Byte.to_N a * 65536 + Byte.to_N b * 256)%N in
      String (b64_char (n / 262144))
        (String (b64_char (n / 4096 mod 64)) (String (b64_char (n / 64 mod 64)) "="))
  | a :: b :: c :: rest =>
      let n := (Byte.to_N a * 65536 + Byte.to_N b * 256 + Byte.to_N c)%N in
      String (b64_char (n / 262144))
        (String (b64_char (n / 4096 mod 64))
           (String (b64_char (n / 64 mod 64))
              (String (b64_char (n mod 64)) (b64encode rest))))
  end.

(** What opening and reading a file can give. *)
Inductive file_read :=
| FileData (data : list Byte.byte)
| FileNotFound
| FileFault (e : exn).     (* any other failure of [open] or [read] *)

(** What posting the request and decoding the answer can give. *)
Inductive post_outcome (J : Type) :=
| Answer (json : J)
| RequestFailed (msg : string)     (* a RequestException *)
| PostFault (e : exn).             (* any other exception *)
Arguments Answer {J} json.
Arguments RequestFailed {J} msg.
Arguments PostFault {J} e.

(** The request body. *)
Record payload := {
  model : string;
  role : string;
  question_text : string;
  image_url : string;
  max_tokens : Z
}.

(** What the persistence side does to the outside world. *)
Inductive pstep :=
| PWrite (filename data : string)
| PPrint (line : string)
| PVisualize (filename output_path background_color : string)
| PPost (url : string) (json : payload)
| PReport (image_path output_html_file markdown_text : string).

Definition P (A : Type) : Type := (result A * list pstep)%type.

Global Instance P_ret : MRet P := λ A a, (Ok a, []).
Global Instance P_bind : MBind P := λ A C f m,
  match m with
  | (Ok a, l1) => match f a with (r, l2) => (r, l1 ++ l2) end
  | (Raise e, l1) => (Raise e, l1)
  end.

Definition pprint (line : string) : P unit := (Ok (), [PPrint line]).

Definition POLLINATIONS_URL : string := "https://text.pollinations.ai/openai".
Definition DEFAULT_QUESTION : string :=
  "As an expert in analysing graphs,in a step by step process explain the attached graph which consist of 4 main parts and at the end of the conclusion suggest from 10 if that place is worth going to for example 5/10 or 8/10 ".
Definition SUPPORTED_FORMATS : list string := ["jpeg"; "jpg"; "png"].

(** [not base64_image] for [None] or a string *)
Definition no_image (base64_image : option string) : bool :=
  match base64_image with
  | Some s => negb (truthy s)
  | None => true
  end.

Section Analysis.
Context {J : Type}.
Variable read_file : string → file_read.
Variable post : string → payload → post_outcome J.

Definition encode_image_base64 (image_path : string) : P (option string) :=
  match read_file image_path with
  | FileData data => mret (Some (b64encode data))
  | FileNotFound =>
      _ ← pprint ("Error: Image file not found at " +:+ image_path);
      mret None
  | FileFault e => (Raise e, [])
  end.

(** The extension check: the format kept, after the warning if any. *)
Definition checked_format (image_path : string) : P string :=
  let image_format := str_lower (last_field (split_on "." image_path)) in
  if bool_decide (image_format ∈ SUPPORTED_FORMATS) then mret image_format
  else
    _ ← pprint ("Warning: Potentially unsupported image format '" +:+ image_format
                +:+ "'. Assuming jpeg.");
    mret "jpeg".

Definition analyze_local_image (image_path question : string) : P (option J) :=
  base64_image ← encode_image_base64 image_path;
  if no_image base64_image then mret None
  else
    image_format ← checked_format image_path;
    let json :=
      {| model := "openai";
         role := "user";
         question_text := question;
         image_url := "data:image/" +:+ image_format +:+ ";base64,"
                      +:+ default "" base64_image;
         max_tokens := 500 |} in
    match post POLLINATIONS_URL json with
    | Answer response => (Ok (Some response), [PPost POLLINATIONS_URL json])
    | RequestFailed msg =>
        (Ok None, [PPost POLLINATIONS_URL json;
                   PPrint ("Error analyzing local image: " +:+ msg)])
    | PostFault e => (Raise e, [PPost POLLINATIONS_URL json])
    end.

(** ** The body of save_reviews_to_file

    Serialisation, the file system, the visualisation, the content of the
    answer and the report writer are taken as they come. *)
Variable json_dumps : list ReviewRecord → string.
Variable write_file : string → string → result unit.
Variable visualize : string → string → string → result unit.
Variable message_content : J → result string.
Variable generate_html_report : string → string → string → result unit.

(** [resp['choices'][0]['message']['content']]; [resp] may be [None]. *)
Definition report_markdown (resp : option J) : result string :=
  match resp with
  | Some response => message_content response
  | None => Raise (Exn TypeError "'NoneType' object is not subscriptable")
  end.

Definition save_reviews_to_file_body (reviews : list ReviewRecord) (title : string)
  : P unit :=
  let filename := reviews_filename title in
  let imagepath := visual_path title in
  let data_str := json_dumps reviews in
  _ ← (write_file filename data_str, [PWrite filename data_str]);
  _ ← pprint ("Saved " +:+ pretty (length reviews) +:+ " reviews to " +:+ filename);
  _ ← pprint "Creating Visualization..";
  _ ← (visualize filename imagepath "white", [PVisualize filename imagepath "white"]);
  _ ← pprint "Visual created...";
  _ ← pprint "Analyzing with AI...";
  resp ← analyze_local_image imagepath DEFAULT_QUESTION;
  _ ← pprint "Local Image Analysis generated...";
  _ ← pprint "Generating report....";
  markdown_text ← (report_markdown resp, []);
  (generate_html_report imagepath "report.html" markdown_text,
   [PReport imagepath "report.html" markdown_text]).
End Analysis.

(** ** visualizer.py: the two parsers *)

Fixpoint drop_chars (n : nat) (s : string) : string :=
  match n, s with
  | S n', String _ s' => drop_chars n' s'
  | _, _ => s
  end.

(** [re.sub(r'^Edited\s+', '', s)]: "Edited" at the very start, followed
    by at least one whitespace character, goes together with all the
    whitespace that follows it. *)
Definition drop_edited (s : string) : string :=
  if starts_with "Edited" s then
    match drop_chars 6 s with
    | String c rest => if is_space c then lstrip (String c rest) else s
    | EmptyString => s
    end
  else s.

(** [clean = re.sub(r'^Edited\s+', '', date_str.strip())] *)
Definition clean_date (date_str : string) : string := drop_edited (strip date_str).

Section RelativeDate.
Context {D T : Type}.
(** [dateparser.parse]: a point in time, or [None]; [pd.to_datetime]
    turns it into a timestamp. *)
Variable dateparser_parse : string → option D.
Variable to_datetime : D → T.

Definition parse_relative_date (date_str : string) : option T :=
  match dateparser_parse (clean_date date_str) with
  | Some dt => Some (to_datetime dt)
  | None => None
  end.
End RelativeDate.

Section Rating.
Context {F : Type}.
(** [float(s)] on a string: a number, or [None] for a [ValueError]. *)
Variable float : string → option F.

(** [float(rating_str.split('/')[0])], [None] on a [ValueError] *)
Definition parse_rating (rating_str : string) : option F :=
  float (first_field (split_on "/" rating_str)).
End Rating.

(** The requests posted and the reports written, in order. *)
Definition posts (steps : list pstep) : list payload :=
  omap (λ st, match st with PPost _ json => Some json | _ => None end) steps.

Definition is_report (st : pstep) : bool :=
  match st with
  | PReport _ _ _ => true
  | _ => false
  end.

(** ** generateReport.py: removing the advertisement *)

Definition AD_HEADER : string :=
  "---" +:+ NL +:+ NL +:+ "**Support Pollinations.AI:**" +:+ NL.

(** [sub in s] *)
Definition occurs (sub s : string) : bool := negb (str_find s sub =? -1).

(** [re.sub(pattern, '', md_text, flags=re.DOTALL)] for the pattern
    [(?m)^---\n\n\*\*Support Pollinations\.AI:\*\*\n.*?pollinations\.ai.*]:
    the leftmost place that is at the start of a line, begins with the
    header and has "pollinations.ai" somewhere after the header matches,
    and with [DOTALL] the final [.*] takes the match to the end of the
    text.  [line_start] tells whether [s] begins a line. *)
Fixpoint cut_ad (line_start : bool) (s : string) : string :=
  if line_start && starts_with AD_HEADER s
     && occurs "pollinations.ai" (drop_chars (String.length AD_HEADER) s)
  then EmptyString
  else
    match s with
    | EmptyString => EmptyString
    | String c s' => String c (cut_ad (bool_decide (c = ascii_of_nat 10)) s')
    end.

Definition remove_pollinations_ad (md_text : string) : string :=
  strip (cut_ad true md_text).

(** A page that shows "23 reviews" and two cards. *)
Definition counted_page : Scripted.Page :=
  {| Scripted.document :=
       Scripted.Elem "body" [] "" [Scripted.full_card; Scripted.textless_card];
     Scripted.at_xpath :=
       [(PLACE_TITLE_XPATH, Scripted.Elem "h1" [] "Cafe" []);
        (REVIEWS_COUNT_XPATH, Scripted.Elem "span" [] "23 reviews" [])];
     Scripted.extents := [400; 400] |}.

(** A card with three service entries. *)
Definition three_services_card : Scripted.Node :=
  Scripted.card
    [ Scripted.stars 5; Scripted.span "rsqaWe" "a day ago";
      Scripted.review_block "All good";
      Scripted.services_block ["Dine in"; "Takeaway"; "Delivery"] ].

(** ** A scripted browser that can refuse a click

    As [Scripted.scripted_browser], except that clicking a node of class
    "obscured" raises, as the driver does when another element would
    receive the click. *)
Definition click_intercepted : exn :=
  Exn WebDriverException "element click intercepted".

Definition refusing_browser : Browser Scripted.Page Scripted.Node := {|
  driver_get := λ _ p, (Ok (), p);
  driver_find_element := λ p by_, Scripted.first_of (Scripted.all_in_document p by_);
  driver_find_elements := λ p by_, Ok (Scripted.all_in_document p by_);
  driver_execute_script := λ script _ p, Scripted.run_script script p;
  driver_quit := λ p, (Ok (), p);
  element_find_element := λ _ n by_, Scripted.first_of (Scripted.all_under n by_);
  element_find_elements := λ _ n by_, Ok (Scripted.all_under n by_);
  element_text := λ _ n, Ok (Scripted.rendered_of n);
  element_click := λ n p,
    if bool_decide ("obscured" ∈ Scripted.classes_of n)
    then (Raise click_intercepted, p) else (Ok (), p);
  time_sleep := λ _ p, p
|}.

(** The count element under the second XPath, covered by another
    element. *)
Definition obscured_count : Scripted.Node :=
  Scripted.Elem "span" ["obscured"] "23 reviews" [].

(** A page with a title and a card; the first count element is missing
    and the second cannot be clicked. *)
Definition obscured_count_page : Scripted.Page :=
  {| Scripted.document := Scripted.Elem "body" [] "" [Scripted.full_card];
     Scripted.at_xpath :=
       [(PLACE_TITLE_XPATH, Scripted.Elem "h1" [] "Cafe" []);
        (REVIEWS_COUNT_XPATH2, obscured_count)];
     Scripted.extents := [] |}.

(** A review block whose text element renders nothing at all. *)
Definition empty_text_card : Scripted.Node :=
  Scripted.card
    [ Scripted.stars 5; Scripted.span "rsqaWe" "a week ago";
      Scripted.review_block "" ].

(** * Properties *)

(** ** Appending strings *)

Lemma string_app_cons c s t : String c s +:+ t = String c (s +:+ t).
Proof. reflexivity. Qed.

Lemma string_app_nil_l t : "" +:+ t = t.
Proof. reflexivity. Qed.

Lemma string_length_app s t :
  String.length (s +:+ t) = (String.length s + String.length t)%nat.
Proof.
  induction s as [|c s IH]; [done|].
  rewrite string_app_cons. cbn [String.length]. by rewrite IH.
Qed.

Lemma string_app_assoc s t u : (s +:+ t) +:+ u = s +:+ t +:+ u.
Proof.
  induction s as [|c s IH]; [done|]. rewrite !string_app_cons. by rewrite IH.
Qed.

Lemma string_app_nil_r s : s +:+ "" = s.
Proof. induction s as [|c s IH]; [done|]. rewrite string_app_cons. by rewrite IH. Qed.

(** ** Field Extractor and Card Harvester *)
Section FieldExtractorFacts.
Context {B E : Type} `{Browser B E}.
Implicit Types (driver : B) (card : E).

Lemma stripped_text_of_ok driver scope cls d :
  stripped_text_of driver scope cls = Ok d →
  ∃ el raw,
    element_find_element driver scope (CLASS_NAME cls) = Ok el ∧
    element_text driver el = Ok raw ∧ d = strip raw.
Proof.
  unfold stripped_text_of, mbind, result_bind, mret, result_ret.
  destruct (element_find_element driver scope (CLASS_NAME cls)) as [el|]; [|discriminate].
  destruct (element_text driver el) as [raw|] eqn:Hraw; [|discriminate].
  intros [= <-]. eauto 10.
Qed.

Lemma extract_review_text_ok driver card body :
  extract_review_text driver card = Ok body →
  ∃ review_block el raw,
    element_find_element driver card (CLASS_NAME REVIEW_BLOCK_CLASS) = Ok review_block ∧
    element_find_element driver review_block (CLASS_NAME REVIEW_TEXT_CLASS) = Ok el ∧
    element_text driver el = Ok raw ∧ body = strip raw.
Proof.
  unfold extract_review_text, mbind, result_bind.
  destruct (element_find_element driver card (CLASS_NAME REVIEW_BLOCK_CLASS))
    as [blk|] eqn:Hblk; [|discriminate].
  intros (el & raw & ? & ? & ?)%stripped_text_of_ok. eauto 10.
Qed.

(** Every inner [try] of the card body catches its own faults, so the
    outer handler of the card loop never runs. *)
Lemma extract_card_ok driver card :
  extract_card driver card = Ok (emitted driver card).
Proof.
  unfold emitted, extract_card.
  destruct (extract_review_text driver card); [|done].
  destruct (date_missing _); done.
Qed.

Lemma emitted_inv driver card r :
  emitted driver card = Some r →
  ∃ body d,
    extract_review_text driver card = Ok body ∧
    extract_date driver card = Some d ∧ truthy d = true ∧
    r = {| date := d;
           rating := extract_rating driver card;
           text := if nonempty (extract_services driver card)
                   then body +:+ services_suffix (extract_services driver card)
                   else body;
           owner := extract_owner driver card |}.
Proof.
  unfold emitted, extract_card.
  destruct (extract_review_text driver card) as [body|]; [|discriminate].
  destruct (extract_date driver card) as [d|] eqn:Hd; simpl; [|discriminate].
  destruct (truthy d) eqn:Ht; simpl; [|discriminate].
  intros [= <-]. exists body, d. done.
Qed.

Lemma cards_loop_spec driver (cards : list E) reviews :
  cards_loop cards reviews driver
  = (Ok (reviews ++ omap (emitted driver) cards), driver, []).
Proof.
  revert reviews. induction cards as [|card rest IH]; intros reviews; simpl.
  - by rewrite app_nil_r.
  - unfold mbind at 1, M_bind, try_except, observe.
    rewrite extract_card_ok.
    destruct (emitted driver card) as [r|]; rewrite IH; [|done].
    by rewrite <- app_assoc.
Qed.

Lemma extract_reviews_data_spec driver :
  extract_reviews_data driver
  = match driver_find_elements driver (CLASS_NAME REVIEW_CONTAINER_CLASS) with
    | Ok cards =>
        (Ok (omap (emitted driver) cards), driver,
         [EvFindElements (CLASS_NAME REVIEW_CONTAINER_CLASS)])
    | Raise e =>
        (Raise e, driver, [EvFindElements (CLASS_NAME REVIEW_CONTAINER_CLASS)])
    end.
Proof.
  unfold extract_reviews_data, mbind, M_bind, find_elements.
  destruct (driver_find_elements driver _) as [cards|]; [|done].
  by rewrite cards_loop_spec.
Qed.
End FieldExtractorFacts.

Section FieldExtractorClaims.
Context {B E : Type} `{Browser B E}.
Implicit Types (driver : B) (card : E).

Lemma no_review_block_no_record driver card e :
  element_find_element driver card (CLASS_NAME REVIEW_BLOCK_CLASS) = Raise e →
  emitted driver card = None.
Proof.
  intros Hblk. unfold emitted, extract_card, extract_review_text, mbind, result_bind.
  by rewrite Hblk.
Qed.

Lemma harvest_without driver pre card post :
  driver_find_elements driver (CLASS_NAME REVIEW_CONTAINER_CLASS) = Ok (pre ++ card :: post) →
  emitted driver card = None →
  (extract_reviews_data driver).1.1
  = Ok (omap (emitted driver) pre ++ omap (emitted driver) post).
Proof.
  intros Hcards Hnone. rewrite extract_reviews_data_spec, Hcards. simpl.
  by rewrite omap_app; simpl; rewrite Hnone.
Qed.

(** The text gate as the code has it: the presence of the text element
    inside the "user review" sub-block.  Every record of the harvested
    sequence comes from a card in which that sub-block and its text
    element were found and read, and its text is the stripped text read
    there, followed by the services suffix exactly when services were
    collected from that card; a card without the sub-block leaves no
    record in the sequence.  The gate does not look at the stripped
    text itself. *)
Theorem review_text_gate driver (cards : list E) :
  driver_find_elements driver (CLASS_NAME REVIEW_CONTAINER_CLASS) = Ok cards →
  ∃ reviews,
    (extract_reviews_data driver).1.1 = Ok reviews ∧
    (∀ r, r ∈ reviews →
       ∃ card review_block el raw,
         card ∈ cards ∧
         element_find_element driver card (CLASS_NAME REVIEW_BLOCK_CLASS) = Ok review_block ∧
         element_find_element driver review_block (CLASS_NAME REVIEW_TEXT_CLASS) = Ok el ∧
         element_text driver el = Ok raw ∧
         text r = match extract_services driver card with
                  | [] => strip raw
                  | services => strip raw +:+ services_suffix services
                  end) ∧
    (∀ pre card post e,
       cards = pre ++ card :: post →
       element_find_element driver card (CLASS_NAME REVIEW_BLOCK_CLASS) = Raise e →
       reviews = omap (emitted driver) pre ++ omap (emitted driver) post).
Proof.
  intros Hcards. exists (omap (emitted driver) cards).
  split; [by rewrite extract_reviews_data_spec, Hcards|]. split.
  - intros r (card & Hin & Hr)%list_elem_of_omap.
    destruct (emitted_inv _ _ _ Hr) as (body & d & Hbody & _ & _ & ->).
    destruct (extract_review_text_ok _ _ _ Hbody) as (blk & el & raw & ? & ? & ? & ->).
    exists card, blk, el, raw. repeat split; try done. simpl.
    by destruct (extract_services driver card).
  - intros pre card post e -> Hblk. rewrite omap_app. simpl.
    by rewrite (no_review_block_no_record _ _ _ Hblk).
Qed.

Lemma date_loop_two driver card c1 c2 :
  date_loop driver card [c1; c2] None =
    match stripped_text_of driver card c1 with
    | Ok d => Some d
    | Raise _ =>
        match stripped_text_of driver card c2 with
        | Ok d => Some d
        | Raise _ => None
        end
    end.
Proof. reflexivity. Qed.

Lemma date_missing_no_record driver card :
  date_missing (extract_date driver card) = true →
  emitted driver card = None.
Proof.
  intros Hd. unfold emitted, extract_card.
  destruct (extract_review_text driver card); [|done]. by rewrite Hd.
Qed.

(** C4 (as the code has it).  The two date classes are tried in the
    order of [DATE_CLASSES]; the first one whose element is found and
    read is taken, whatever its text, and the second class is tried
    only when the first one faults.  A card is emitted only with the
    date so taken, which is then non-empty; when the date taken is
    empty, or both classes fault, the card is dropped. *)
Theorem date_first_found driver card :
  extract_date driver card =
    match stripped_text_of driver card "rsqaWe" with
    | Ok d => Some d
    | Raise _ =>
        match stripped_text_of driver card "xRkPPb" with
        | Ok d => Some d
        | Raise _ => None
        end
    end ∧
  (∀ r, emitted driver card = Some r →
        extract_date driver card = Some (date r) ∧ date r ≠ "") ∧
  (extract_date driver card = None ∨ extract_date driver card = Some "" →
   emitted driver card = None).
Proof.
  split; [apply date_loop_two|]. split.
  - intros r (body & d & _ & Hd & Ht & ->)%emitted_inv. simpl. split; [done|].
    by destruct d.
  - intros Hd. apply date_missing_no_record. by destruct Hd as [-> | ->].
Qed.

(** C5.  A card for which no date class yields a non-empty text leaves
    no record in the harvested sequence, whatever its text and rating
    lookups give. *)
Theorem no_date_drops_card driver pre card post :
  driver_find_elements driver (CLASS_NAME REVIEW_CONTAINER_CLASS) = Ok (pre ++ card :: post) →
  (∀ cls d, cls ∈ DATE_CLASSES → stripped_text_of driver card cls = Ok d → d = "") →
  emitted driver card = None ∧
  (extract_reviews_data driver).1.1
  = Ok (omap (emitted driver) pre ++ omap (emitted driver) post).
Proof.
  intros Hcards Hnodate.
  assert (emitted driver card = None) as Hnone.
  { apply date_missing_no_record. unfold extract_date, DATE_CLASSES. rewrite date_loop_two.
    destruct (stripped_text_of driver card "rsqaWe") as [d|] eqn:H1.
    - rewrite (Hnodate "rsqaWe" d); [done| |done]. unfold DATE_CLASSES. repeat constructor.
    - destruct (stripped_text_of driver card "xRkPPb") as [d|] eqn:H2; [|done].
      rewrite (Hnodate "xRkPPb" d); [done| |done]. unfold DATE_CLASSES. repeat constructor. }
  split; [done|]. by apply (harvest_without driver pre card post).
Qed.

(** C6 (as the code has it).  The rating of an emitted record is a
    string in every case: the stripped text of the direct rating
    element when that lookup and read succeed; otherwise the number of
    filled-star elements found in the star container, followed by "/5";
    otherwise "N/A".  The denominator is the constant 5. *)
Theorem rating_resolution driver card r :
  emitted driver card = Some r →
  rating r =
    match stripped_text_of driver card RATING_TEXT_CLASS with
    | Ok direct => direct
    | Raise _ =>
        match
          container ← element_find_element driver card (CLASS_NAME STAR_CONTAINER_CLASS);
          element_find_elements driver container (CLASS_NAME FILLED_STAR_CLASS)
        with
        | Ok stars => pretty (length stars) +:+ "/5"
        | Raise _ => "N/A"
        end
    end.
Proof.
  intros (body & d & _ & _ & _ & ->)%emitted_inv. simpl.
  unfold extract_rating, count_stars, mbind, result_bind, mret, result_ret.
  destruct (stripped_text_of driver card RATING_TEXT_CLASS); [done|].
  destruct (element_find_element driver card (CLASS_NAME STAR_CONTAINER_CLASS)); [|done].
  by destruct (element_find_elements _ _ _).
Qed.

Lemma services_loop_spec driver (entries : list E) services :
  services_loop driver entries services
  = services ++
    List.filter truthy
      (read_until_fault
         (map (λ entry, stripped_text_of driver entry SERVICES_ENTRY_CLASS) entries)).
Proof.
  revert services. induction entries as [|entry rest IH]; intros services; simpl.
  - by rewrite app_nil_r.
  - destruct (stripped_text_of driver entry SERVICES_ENTRY_CLASS) as [svc|]; simpl.
    + destruct (truthy svc); rewrite IH; [|done]. by rewrite <- app_assoc.
    + by rewrite app_nil_r.
Qed.

(** ["; ".join(a :: rest)] followed by the closing bracket, written
    out: the first entry, then every further entry behind "; ". *)
Lemma join_semicolon_closed a (rest : list string) :
  join "; " (a :: rest) +:+ ")" = a +:+ foldr (λ s acc, "; " +:+ s +:+ acc) ")" rest.
Proof.
  unfold join. revert a. induction rest as [|b rest IH]; intros a; [done|].
  change (String.concat "; " (a :: b :: rest))
    with (a +:+ "; " +:+ String.concat "; " (b :: rest)).
  rewrite !string_app_assoc. cbn [foldr]. by rewrite <- IH.
Qed.

(** C7.  The text of an emitted record is the review body; when at
    least one service entry was collected, the body is followed by a
    space and "(Services: a; b; c)": the first entry, every further
    entry behind a semicolon and a space, and the closing bracket.  The
    entries are the non-empty stripped texts of the wrapper's entry
    elements in the order the driver lists them (up to the first entry
    that cannot be read); without a wrapper, or with no entry
    collected, the text is the body unchanged. *)
Theorem services_suffix_form driver card r :
  emitted driver card = Some r →
  ∃ body,
    extract_review_text driver card = Ok body ∧
    text r =
      match extract_services driver card with
      | [] => body
      | a :: rest =>
          body +:+ " (Services: " +:+ a +:+ foldr (λ s acc, "; " +:+ s +:+ acc) ")" rest
      end ∧
    (∀ a, extract_services driver card = [a] →
          text r = body +:+ " (Services: " +:+ a +:+ ")") ∧
    (∀ a b c, extract_services driver card = [a; b; c] →
              text r = body +:+ " (Services: " +:+ a +:+ "; " +:+ b +:+ "; " +:+ c +:+ ")") ∧
    extract_services driver card =
      match
        svc_wrapper ← element_find_element driver card (CLASS_NAME SERVICES_PARENT_CLASS);
        element_find_elements driver svc_wrapper (XPATH "./div[position()>1]")
      with
      | Ok entries =>
          List.filter truthy
            (read_until_fault
               (map (λ entry, stripped_text_of driver entry SERVICES_ENTRY_CLASS) entries))
      | Raise _ => []
      end.
Proof.
  intros (body & d & Hbody & _ & _ & ->)%emitted_inv. exists body. cbn [text].
  assert ((if nonempty (extract_services driver card)
           then body +:+ services_suffix (extract_services driver card) else body)
          = match extract_services driver card with
            | [] => body
            | a :: rest =>
                body +:+ " (Services: " +:+ a
                +:+ foldr (λ s acc, "; " +:+ s +:+ acc) ")" rest
            end) as Htext.
  { destruct (extract_services driver card) as [|a rest]; [done|].
    cbn [nonempty]. unfold services_suffix. by rewrite join_semicolon_closed. }
  split; [done|]. split; [exact Htext|]. rewrite Htext.
  split; [by intros a ->|]. split; [by intros a b c ->|].
  unfold extract_services.
  destruct (_ ≫= _) as [entries|]; [|done]. by rewrite services_loop_spec.
Qed.
End FieldExtractorClaims.

(** ** Strings *)

Lemma list_ascii_of_string_app s t :
  list_ascii_of_string (s +:+ t) = list_ascii_of_string s ++ list_ascii_of_string t.
Proof. induction s as [|c s IH]; [done|]. cbn. by rewrite <- IH. Qed.

Lemma string_app_inj_r t s1 s2 : s1 +:+ t = s2 +:+ t → s1 = s2.
Proof.
  intros Heq. apply (f_equal list_ascii_of_string) in Heq.
  rewrite !list_ascii_of_string_app in Heq. apply app_inv_tail in Heq.
  rewrite <- (string_of_list_ascii_of_string s1), <- (string_of_list_ascii_of_string s2).
  by rewrite Heq.
Qed.

Lemma no_more_line_inj k k' : no_more_line k = no_more_line k' → k = k'.
Proof.
  unfold no_more_line. intros Heq.
  apply (inj (String.app _)) in Heq. apply string_app_inj_r in Heq.
  by apply (inj pretty) in Heq.
Qed.

Lemma no_more_line_not_finished k :
  no_more_line k ≠ "Finished scrolling. All reviews should be loaded.".
Proof. unfold no_more_line. cbn. discriminate. Qed.

Lemma scripts_differ : bool_decide (SCROLL_SCRIPT = MEASURE_SCRIPT) = false.
Proof. by vm_compute. Qed.

(** ** Convergent Scroll Loader *)
Section ScrollLoader.
Context {B E : Type} `{Browser B E}.
Implicit Types (b : B) (l : list (event E)).

Lemma measurements_app l1 l2 :
  measurements (l1 ++ l2) = measurements l1 ++ measurements l2.
Proof. apply omap_app. Qed.

Lemma scrolls_app l1 l2 : scrolls (l1 ++ l2) = (scrolls l1 + scrolls l2)%nat.
Proof. unfold scrolls. by rewrite filter_app, length_app. Qed.

Lemma measurements_iteration v h :
  measurements (iteration_events (E:=E) v (Ok h)) = [h].
Proof.
  unfold measurements, iteration_events. cbn [omap list_omap].
  by rewrite scripts_differ, bool_decide_eq_true_2.
Qed.

Lemma measurements_iteration_fault v e :
  measurements (iteration_events (E:=E) v (Raise e)) = [].
Proof.
  unfold measurements, iteration_events. cbn [omap list_omap].
  by rewrite scripts_differ.
Qed.

Lemma scrolls_iteration v measured : scrolls (iteration_events (E:=E) v measured) = 1%nat.
Proof.
  unfold scrolls, iteration_events. cbn [List.filter].
  rewrite bool_decide_eq_true_2 by done.
  by replace (bool_decide (MEASURE_SCRIPT = SCROLL_SCRIPT)) with false by by vm_compute.
Qed.

Lemma halted_after_iteration v measured k :
  ¬ halted_after (iteration_events (E:=E) v measured) k.
Proof. unfold halted_after, iteration_events. simpl. intuition discriminate. Qed.

(** One turn of the [for] loop. *)
Lemma scroll_loop_step i rest last_height b :
  scroll_loop (i :: rest) last_height b =
    match driver_execute_script SCROLL_SCRIPT [] b with
    | (Raise e, b1) => (Raise e, b1, [EvScript SCROLL_SCRIPT [] (Raise e)])
    | (Ok v, b1) =>
        match driver_execute_script MEASURE_SCRIPT [] (time_sleep 2000 b1) with
        | (Raise e, b2) => (Raise e, b2, iteration_events v (Raise e))
        | (Ok new_height, b2) =>
            if py_eq new_height last_height then
              (Ok (), b2,
               iteration_events v (Ok new_height) ++ [EvPrint (no_more_line (i + 1))])
            else
              match scroll_loop rest new_height b2 with
              | (r, b3, l) => (r, b3, iteration_events v (Ok new_height) ++ l)
              end
        end
    end.
Proof.
  cbn [scroll_loop]. unfold mbind, M_bind, execute_script, sleep, print, emit.
  destruct (driver_execute_script SCROLL_SCRIPT [] b) as [[v|e] b1]; [|done].
  destruct (driver_execute_script MEASURE_SCRIPT [] (time_sleep 2000 b1))
    as [[h|e] b2]; [|done].
  destruct (py_eq h last_height); [done|].
  by destruct (scroll_loop rest h b2) as [[r b3] l].
Qed.

Lemma measurements_scroll_fault e :
  measurements [EvScript (E:=E) SCROLL_SCRIPT [] (Raise e)] = [].
Proof. done. Qed.

Lemma scrolls_scroll_fault e :
  scrolls [EvScript (E:=E) SCROLL_SCRIPT [] (Raise e)] = 1%nat.
Proof. unfold scrolls. cbn [List.filter]. by rewrite bool_decide_eq_true_2. Qed.

Lemma halted_after_app l1 l2 k :
  halted_after (l1 ++ l2) k ↔ halted_after l1 k ∨ halted_after l2 k.
Proof. unfold halted_after. apply in_app_iff. Qed.

Lemma halted_after_print line k :
  halted_after [EvPrint (E:=E) line] k ↔ line = no_more_line k.
Proof.
  unfold halted_after. simpl. split.
  - by intros [[= ->] | []].
  - intros ->. by left.
Qed.

Lemma scroll_loop_inv n : ∀ i last_height b r b' l,
  scroll_loop (seq i n) last_height b = (r, b', l) →
  (scrolls l ≤ n)%nat ∧
  (length (measurements l) ≤ scrolls l)%nat ∧
  (∀ k, halted_after l k →
        k = (i + length (measurements l))%nat ∧
        scrolls l = length (measurements l) ∧
        (0 < length (measurements l))%nat) ∧
  (∀ j, (j < length (measurements l))%nat →
        halted_after l (i + S j) ↔
        nth j (measurements l) (PyInt 0)
        = nth j (last_height :: measurements l) (PyInt 0)).
Proof.
  induction n as [|n IH]; intros i last_height b r b' l.
  { intros Hrun; apply (f_equal snd) in Hrun; cbn [snd] in Hrun; subst l. cbn. repeat split; lia || done. }
  cbn [seq]. rewrite scroll_loop_step.
  destruct (driver_execute_script SCROLL_SCRIPT [] b) as [[v|e] b1].
  2:{ intros Hrun; apply (f_equal snd) in Hrun; cbn [snd] in Hrun; subst l.
      rewrite measurements_scroll_fault, scrolls_scroll_fault. cbn [length].
      split; [lia|]. split; [lia|]. split; [|lia].
      intros k Hk. unfold halted_after in Hk. simpl in Hk.
      by destruct Hk as [? | []]. }
  destruct (driver_execute_script MEASURE_SCRIPT [] (time_sleep 2000 b1))
    as [[h|e] b2].
  2:{ intros Hrun; apply (f_equal snd) in Hrun; cbn [snd] in Hrun; subst l.
      rewrite measurements_iteration_fault, scrolls_iteration. cbn [length].
      split; [lia|]. split; [lia|]. split; [|lia].
      intros k Hk. by apply halted_after_iteration in Hk. }
  destruct (py_eq h last_height) eqn:Heq.
  - intros Hrun; apply (f_equal snd) in Hrun; cbn [snd] in Hrun; subst l.
    rewrite measurements_app, scrolls_app, measurements_iteration, scrolls_iteration.
    apply bool_decide_eq_true in Heq as ->.
    change (measurements [EvPrint (E:=E) (no_more_line (i + 1))]) with (@nil pyval).
    change (scrolls [EvPrint (E:=E) (no_more_line (i + 1))]) with 0%nat.
    cbn [app length Nat.add].
    assert (∀ k, halted_after
                   (iteration_events (E:=E) v (Ok last_height)
                    ++ [EvPrint (no_more_line (i + 1))]) k
                 ↔ k = (i + 1)%nat) as Hhalt.
    { intros k. rewrite halted_after_app, halted_after_print. split.
      - intros [Hin | Hk]; [by apply halted_after_iteration in Hin|].
        symmetry. by apply no_more_line_inj.
      - intros ->. by right. }
    split; [lia|]. split; [lia|]. split.
    + intros k Hk%Hhalt. lia.
    + intros j Hj. assert (j = 0%nat) as -> by lia. cbn [nth].
      split; [done|]. intros _. apply Hhalt. lia.
  - destruct (scroll_loop (seq (S i) n) h b2) as [[r' b3] l'] eqn:Hrest.
    intros Hrun; apply (f_equal snd) in Hrun; cbn [snd] in Hrun; subst l.
    destruct (IH _ _ _ _ _ _ Hrest) as (Hs & Hm & Hhalt & Hiff).
    rewrite measurements_app, scrolls_app, measurements_iteration, scrolls_iteration.
    cbn [app length Nat.add].
    assert (∀ k, halted_after (iteration_events (E:=E) v (Ok h) ++ l') k ↔ halted_after l' k)
      as Hpre.
    { intros k. rewrite halted_after_app. split; [|by right].
      intros [Hin|?]; [|done]. by apply halted_after_iteration in Hin. }
    split; [lia|]. split; [lia|]. split.
    + intros k Hk%Hpre%Hhalt. lia.
    + intros j Hj. rewrite Hpre. destruct j as [|j]; cbn [nth].
      * split.
        -- intros Hk%Hhalt. lia.
        -- intros ->. unfold py_eq in Heq. by rewrite bool_decide_eq_true_2 in Heq.
      * replace (i + S (S j))%nat with (S i + S j)%nat by lia. apply Hiff. lia.
Qed.

Lemma scroll_to_load_reviews_events total b :
  ∃ tail,
    (scroll_to_load_reviews (Some total) b).2
    = (scroll_loop (seq 0 (Z.to_nat (Z.max (total `div` 10 + 2) 5))) (PyInt 0) b).2 ++ tail ∧
    (tail = [] ∨
     tail = [EvPrint "Finished scrolling. All reviews should be loaded."]).
Proof.
  unfold scroll_to_load_reviews, compute_batches, floordiv, lift, range, print, emit.
  unfold mbind, M_bind, result_bind, mret, result_ret. cbn [app].
  destruct (scroll_loop _ _ b) as [[[[]|e] b1] l]; cbn [snd].
  - eexists. split; [done|]. by right.
  - exists []. rewrite app_nil_r. split; [done|]. by left.
Qed.

Lemma scroll_to_load_reviews_run total b :
  scroll_to_load_reviews (Some total) b =
    match scroll_loop (seq 0 (Z.to_nat (Z.max (total `div` 10 + 2) 5))) (PyInt 0) b with
    | (Ok _, b1, l) =>
        (Ok (), b1, l ++ [EvPrint "Finished scrolling. All reviews should be loaded."])
    | (Raise e, b1, l) => (Raise e, b1, l)
    end.
Proof.
  unfold scroll_to_load_reviews, compute_batches, floordiv, lift, range, print, emit.
  unfold mbind, M_bind, result_bind, mret, result_ret. cbn [app].
  by destruct (scroll_loop _ _ b) as [[[[]|e] b1] l].
Qed.

(** A loop that returns has measured every iteration it made, and it
    has either used up its iterations or broken off in the last one it
    made. *)
Lemma scroll_loop_returns n : ∀ i last_height b b' l,
  scroll_loop (seq i n) last_height b = (Ok (), b', l) →
  length (measurements l) = scrolls l ∧
  (scrolls l = n ∨ halted_after l (i + scrolls l) ∧ (0 < scrolls l)%nat).
Proof.
  induction n as [|n IH]; intros i last_height b b' l.
  { intros Hrun; apply (f_equal snd) in Hrun; cbn [snd] in Hrun; subst l.
    split; [done|]. by left. }
  cbn [seq]. rewrite scroll_loop_step.
  destruct (driver_execute_script SCROLL_SCRIPT [] b) as [[v|e] b1]; [|done].
  destruct (driver_execute_script MEASURE_SCRIPT [] (time_sleep 2000 b1))
    as [[h|e] b2]; [|done].
  destruct (py_eq h last_height).
  - intros Hrun; apply (f_equal snd) in Hrun; cbn [snd] in Hrun; subst l.
    rewrite measurements_app, scrolls_app, measurements_iteration, scrolls_iteration.
    change (measurements [EvPrint (E:=E) (no_more_line (i + 1))]) with (@nil pyval).
    change (scrolls [EvPrint (E:=E) (no_more_line (i + 1))]) with 0%nat.
    cbn [app length Nat.add]. split; [done|]. right. split; [|lia].
    apply halted_after_app. right. by apply halted_after_print.
  - destruct (scroll_loop (seq (S i) n) h b2) as [[r' b3] l'] eqn:Hrest.
    intros Hrun. pose proof (f_equal (λ x, x.1.1) Hrun) as Hr.
    pose proof (f_equal snd Hrun) as Hl. cbn [fst snd] in Hr, Hl. subst r' l.
    destruct (IH _ _ _ _ _ Hrest) as [Hm Hend].
    rewrite measurements_app, scrolls_app, measurements_iteration, scrolls_iteration.
    cbn [app length Nat.add]. split; [lia|].
    destruct Hend as [Hn | [Hhalt Hpos]]; [left; lia|]. right. split; [|lia].
    apply halted_after_app. right.
    by replace (i + S (scrolls l'))%nat with (S i + scrolls l')%nat by lia.
Qed.


(** C3 (as the code has it).  For every integer count the budget is
    [max(count // 10 + 2, 5)]: 5 for 23 and 5 for 0.  For [None] no
    budget exists: the floor division raises [TypeError] and the loader
    stops there, before any scrolling. *)
Theorem iteration_budget (total : Z) b :
  compute_batches (Some total) = Ok (Z.max (total `div` 10 + 2) 5) ∧
  compute_batches (Some 23) = Ok 5 ∧
  compute_batches (Some 0) = Ok 5 ∧
  ∃ e, exn_kind_of e = TypeError ∧
       compute_batches None = Raise e ∧
       scroll_to_load_reviews None b = (Raise e, b, []).
Proof.
  split; [done|]. split; [done|]. split; [done|].
  eexists. split; [|split; reflexivity]. done.
Qed.
End ScrollLoader.

(** ** Tab Resolver *)
Section TabResolver.
Context {B E : Type} `{Browser B E}.
Implicit Types (b : B).

End TabResolver.

(** ** Session Orchestrator *)
Section Orchestrator.
Context {B E : Type} `{Browser B E}.
Implicit Types (b : B) (l : list (event E)) (P : event E → Prop).

(** Properties of all events pass through the combinators. *)
Lemma events_bind {A C} P (m : M A) (f : A → M C) b :
  Forall P (m b).2 → (∀ a b1, Forall P (f a b1).2) → Forall P ((m ≫= f) b).2.
Proof.
  intros Hm Hf. unfold mbind, M_bind.
  destruct (m b) as [[[a|e] b1] l1]; [|done].
  specialize (Hf a b1). destruct (f a b1) as [[r b2] l2].
  by apply Forall_app.
Qed.

Lemma events_try_except {A} P (body : M A) handler b :
  Forall P (body b).2 → (∀ e b1, Forall P (handler e b1).2) →
  Forall P (try_except body handler b).2.
Proof.
  intros Hm Hh. unfold try_except.
  destruct (body b) as [[[a|e] b1] l1]; [done|].
  specialize (Hh e b1). destruct (handler e b1) as [[r b2] l2].
  by apply Forall_app.
Qed.

Lemma events_try_except_only {A} P kinds (body : M A) handler b :
  Forall P (body b).2 → (∀ e b1, Forall P (handler e b1).2) →
  Forall P (try_except_only kinds body handler b).2.
Proof.
  intros Hm Hh. unfold try_except_only.
  destruct (body b) as [[[a|e] b1] l1]; [done|].
  destruct (bool_decide _); [|done].
  specialize (Hh e b1). destruct (handler e b1) as [[r b2] l2].
  by apply Forall_app.
Qed.

Local Abbreviation quiet := (Forall (λ ev : event E, harvest_step ev = false)).

Lemma navigate_quiet url b : quiet (navigate_to_url url b).2.
Proof.
  unfold navigate_to_url, mbind, M_bind, get, sleep.
  destruct (driver_get url b) as [[[]|e] b1]; cbn; repeat constructor.
Qed.

Lemma get_place_title_quiet b : quiet (get_place_title b).2.
Proof.
  unfold get_place_title. apply events_try_except.
  - unfold mbind, M_bind, find_element, text_of, observe.
    destruct (driver_find_element b _) as [el|e]; [|repeat constructor].
    destruct (element_text b el); cbn; repeat constructor.
  - intros e b1. cbn. repeat constructor.
Qed.

Lemma read_count_quiet xpath b : quiet (read_count xpath b).2.
Proof.
  unfold read_count, mbind, M_bind, find_element, click, sleep, text_of, observe, lift.
  destruct (driver_find_element b _) as [el|e]; [|repeat constructor].
  destruct (element_click el b) as [[[]|e] b1]; [|repeat constructor].
  destruct (element_text _ el) as [t|e]; [|repeat constructor].
  destruct (parse_first_int t); cbn; repeat constructor.
Qed.

Lemma get_total_reviews_quiet b : quiet (get_total_reviews b).2.
Proof.
  unfold get_total_reviews. apply events_try_except_only.
  - apply events_try_except.
    + apply events_bind; [apply read_count_quiet|]. intros; cbn; constructor.
    + intros _ b1. apply events_bind; [apply read_count_quiet|].
      intros; cbn; constructor.
  - intros e b1. cbn. repeat constructor.
Qed.

(** [get_place_title] always returns a title. *)
Lemma get_place_title_returns b :
  ∃ place_title b1 l, get_place_title b = (Ok place_title, b1, l).
Proof.
  unfold get_place_title, try_except, mbind, M_bind, find_element, text_of, observe.
  destruct (driver_find_element b _) as [el|e]; [|by eexists _, _, _].
  destruct (element_text b el); by eexists _, _, _.
Qed.

(** A page showing neither count element: the probe returns [None]. *)
Lemma probe_without_count_elements b e1 e2 :
  driver_find_element b (XPATH REVIEWS_COUNT_XPATH) = Raise e1 →
  driver_find_element b (XPATH REVIEWS_COUNT_XPATH2) = Raise e2 →
  exn_kind_of e2 = NoSuchElementException →
  (get_total_reviews b).1 = (Ok None, b).
Proof.
  intros H1 H2 Hkind.
  unfold get_total_reviews, try_except_only, try_except, read_count.
  unfold mbind, M_bind, find_element. rewrite H1, H2, Hkind. done.
Qed.

(** The run of [main] when the probe returns a count that is false. *)
Lemma main_no_count URL b b1 l1 place_title b2 l2 total_reviews b3 l3 :
  navigate_to_url URL b = (Ok (), b1, l1) →
  get_place_title b1 = (Ok place_title, b2, l2) →
  get_total_reviews b2 = (Ok total_reviews, b3, l3) →
  truthy_count total_reviews = false →
  (main URL b).1 = driver_quit b3 ∧
  (main URL b).2
  = l1 ++ l2 ++ banner place_title ++ l3 ++ [EvPrint "No reviews found."; EvQuit] ∧
  quiet (main URL b).2.
Proof.
  intros Hnav Htitle Hprobe Hfalse.
  assert ((main URL b).1 = driver_quit b3 ∧
          (main URL b).2
          = l1 ++ l2 ++ banner place_title ++ l3 ++ [EvPrint "No reviews found."; EvQuit])
    as [Hres Hev].
  { unfold main, try_finally, mbind, M_bind.
    rewrite Hnav. cbv beta iota. rewrite Htitle. cbv beta iota.
    unfold print, emit. cbv beta iota. rewrite Hprobe. cbv beta iota.
    rewrite Hfalse. unfold quit.
    destruct (driver_quit b3) as [[[]|e] b4]; cbn [fst snd]; (split; [done|]).
    all: unfold banner; by rewrite <- !app_assoc. }
  split; [done|]. split; [done|]. rewrite Hev.
  pose proof (navigate_quiet URL b) as Q1. rewrite Hnav in Q1.
  pose proof (get_place_title_quiet b1) as Q2. rewrite Htitle in Q2.
  pose proof (get_total_reviews_quiet b2) as Q3. rewrite Hprobe in Q3.
  cbn [snd] in Q1, Q2, Q3.
  repeat (apply Forall_app; split); try done; repeat constructor.
Qed.

(** A fault that leaves the probe is none of the three kinds its
    handler names. *)
Lemma probe_fault_kind b e b2 l :
  get_total_reviews b = (Raise e, b2, l) →
  exn_kind_of e ∉ [NoSuchElementException; AttributeError; ValueError].
Proof.
  unfold get_total_reviews, try_except_only.
  destruct (try_except _ _ b) as [[[total|e'] b1] l1]; [done|].
  destruct (bool_decide (exn_kind_of e' ∈ _)) eqn:Hkind.
  - unfold mbind, M_bind, print, emit. done.
  - intros [= <- _ _]. by apply bool_decide_eq_false in Hkind.
Qed.


(** C10.  A probe that succeeds with the count 0 is treated like a
    failed probe: the same "No reviews found." line, the same quit,
    and no tab activation, scrolling, text expansion, extraction or
    persistence hand-off. *)
Theorem zero_count_ends_pass URL b b1 l1 place_title b2 l2 b3 l3 :
  navigate_to_url URL b = (Ok (), b1, l1) →
  get_place_title b1 = (Ok place_title, b2, l2) →
  get_total_reviews b2 = (Ok (Some 0), b3, l3) →
  truthy_count (Some 0) = truthy_count None ∧
  (main URL b).1 = driver_quit b3 ∧
  (main URL b).2
  = l1 ++ l2 ++ banner place_title ++ l3 ++ [EvPrint "No reviews found."; EvQuit] ∧
  Forall (λ ev, harvest_step ev = false) (main URL b).2.
Proof. intros Hnav Htitle Hprobe. split; [done|]. by eapply main_no_count. Qed.
End Orchestrator.

(** ** The harvesting steps leave their mark

    Each of the five steps that follow a usable count produces at least
    one event that [harvest_step] recognises, so a run without such
    events has invoked none of them. *)
Section HarvestSteps.
Context {B E : Type} `{Browser B E}.
Implicit Types (b : B).

Lemma some_event_bind {A C} (P : event E → Prop) (m : M A) (f : A → M C) b :
  Exists P (m b).2 → Exists P ((m ≫= f) b).2.
Proof.
  intros Hm. unfold mbind, M_bind.
  destruct (m b) as [[[a|e] b1] l1]; [|done].
  destruct (f a b1) as [[r b2] l2]. apply Exists_app. by left.
Qed.

Lemma some_event_try_except {A} (P : event E → Prop) (body : M A) handler b :
  Exists P (body b).2 → Exists P (try_except body handler b).2.
Proof.
  intros Hm. unfold try_except.
  destruct (body b) as [[[a|e] b1] l1]; [done|].
  destruct (handler e b1) as [[r b2] l2]. apply Exists_app. by left.
Qed.

Lemma harvest_steps_are_seen b total reviews title :
  Exists (λ ev : event E, harvest_step ev = true) (click_review_tab b).2 ∧
  Exists (λ ev : event E, harvest_step ev = true) (scroll_to_load_reviews (Some total) b).2 ∧
  Exists (λ ev : event E, harvest_step ev = true) (expand_show_more_buttons b).2 ∧
  Exists (λ ev : event E, harvest_step ev = true) (extract_reviews_data b).2 ∧
  Exists (λ ev : event E, harvest_step ev = true) (save_reviews_to_file reviews title b).2.
Proof.
  repeat split.
  - apply some_event_try_except, some_event_bind. by constructor.
  - destruct (scroll_to_load_reviews_events total b) as (tail & -> & _).
    apply Exists_app. left.
    assert (∃ n, Z.to_nat (Z.max (total `div` 10 + 2) 5) = S n) as [n ->].
    { exists (Nat.pred (Z.to_nat (Z.max (total `div` 10 + 2) 5))). lia. }
    cbn [seq]. rewrite scroll_loop_step.
    destruct (driver_execute_script SCROLL_SCRIPT [] b) as [[v|e] b1];
      [|by constructor].
    destruct (driver_execute_script MEASURE_SCRIPT [] _) as [[h|e] b2];
      [|by constructor].
    destruct (py_eq h (PyInt 0)); [by constructor|].
    destruct (scroll_loop _ h b2) as [[? ?] ?]. by constructor.
  - apply some_event_try_except, some_event_bind. by constructor.
  - apply some_event_bind. by constructor.
  - by constructor.
Qed.
End HarvestSteps.

(** ** The properties on scripted pages *)
Section OnScriptedPages.
Import Scripted.

(** The end-to-end scenario: of a complete card and a card without
    review text, exactly the first one is harvested. *)
Example end_to_end_scenario :
  (extract_reviews_data two_cards_page).1.1
  = Ok [{| date := "2 days ago"; rating := "4/5";
           text := "Great food (Services: Delivery)"; owner := Some "Thanks!" |}].
Proof. reflexivity. Qed.

Example strip_example : strip "  2 days ago  " = "2 days ago".
Proof. reflexivity. Qed.

Example parse_first_int_example : parse_first_int "1,234 reviews" = Ok 1.
Proof. reflexivity. Qed.

Example rating_examples :
  extract_rating (page_of []) rated_card = "5.0" ∧
  extract_rating (page_of []) full_card = "4/5" ∧
  extract_rating (page_of []) unrated_card = "N/A".
Proof. repeat split; reflexivity. Qed.

Example budget_examples :
  compute_batches (Some 230) = Ok 25 ∧ compute_batches (Some 31) = Ok 5.
Proof. split; reflexivity. Qed.

(** With no scrollable pane every measurement is 0 and the loop breaks
    in its first iteration. *)
Example no_pane_stops_at_once :
  scrolls (scroll_to_load_reviews (Some 120) (page_of [])).2 = 1%nat ∧
  halted_after (scroll_to_load_reviews (Some 120) (page_of [])).2 1.
Proof. split; [reflexivity|]. unfold halted_after. vm_compute. tauto. Qed.

(** The text gate at a page with a complete card and a card without
    review block: the second card leaves no record. *)
Lemma review_text_gate_witness :
  driver_find_elements two_cards_page (CLASS_NAME REVIEW_CONTAINER_CLASS)
  = Ok [full_card; textless_card] ∧
  ∃ reviews,
    (extract_reviews_data two_cards_page).1.1 = Ok reviews ∧
    reviews = omap (emitted two_cards_page) [full_card] ++ omap (emitted two_cards_page) [].
Proof.
  assert (driver_find_elements two_cards_page (CLASS_NAME REVIEW_CONTAINER_CLASS)
          = Ok [full_card; textless_card]) as Hcards by reflexivity.
  split; [exact Hcards|].
  destruct (review_text_gate two_cards_page [full_card; textless_card] Hcards)
    as (reviews & Hrun & _ & Hdrop).
  exists reviews. split; [exact Hrun|].
  apply (Hdrop [full_card] textless_card [] not_found); reflexivity.
Defined.

(** C1.  The code breaks the claim at a card whose review text element
    renders no text, or only blanks: the gate tests that the element
    was found and read, not that its stripped text is non-empty, so the
    card is harvested and its record has the empty text.  The date gate
    next to it does test the stripped text and drops a card whose date
    is empty. *)
Lemma empty_text_record_emitted :
  extract_review_text (page_of [blank_text_card]) blank_text_card = Ok "" ∧
  (extract_reviews_data (page_of [blank_text_card])).1.1
  = Ok [{| date := "a week ago"; rating := "5/5"; text := ""; owner := None |}] ∧
  (extract_reviews_data (page_of [empty_text_card])).1.1
  = Ok [{| date := "a week ago"; rating := "5/5"; text := ""; owner := None |}] ∧
  extract_date (page_of []) empty_first_date_card = Some "" ∧
  emitted (page_of []) empty_first_date_card = None.
Proof. repeat split; reflexivity. Qed.

(** C4, at a card that has only the second date class, and at a card
    whose first date class is present but empty. *)
Lemma date_first_found_witness :
  extract_date (page_of []) second_variant_card = Some "3 weeks ago" ∧
  emitted (page_of []) empty_first_date_card = None.
Proof.
  split.
  - rewrite (proj1 (date_first_found (page_of []) second_variant_card)). reflexivity.
  - apply (proj2 (proj2 (date_first_found (page_of []) empty_first_date_card))).
    right. reflexivity.
Defined.

(** C4 as stated fails: the first date class is found with empty text,
    the second carries "2 days ago"; the rule in the words of the claim
    would take the second, the code takes the empty first and drops the
    card. *)
Lemma empty_first_date_blocks_second :
  stripped_text_of (page_of []) empty_first_date_card "rsqaWe" = Ok "" ∧
  stripped_text_of (page_of []) empty_first_date_card "xRkPPb" = Ok "2 days ago" ∧
  first_nonempty_date (page_of []) empty_first_date_card DATE_CLASSES = Some "2 days ago" ∧
  extract_date (page_of []) empty_first_date_card = Some "" ∧
  (extract_reviews_data (page_of [empty_first_date_card])).1.1 = Ok [].
Proof. repeat split; reflexivity. Qed.

(** C5, at a card with review text and five stars but no date element. *)
Lemma no_date_drops_card_witness :
  extract_review_text dateless_page dateless_card = Ok "Lovely" ∧
  extract_rating dateless_page dateless_card = "5/5" ∧
  emitted dateless_page dateless_card = None ∧
  (extract_reviews_data dateless_page).1.1
  = Ok (omap (emitted dateless_page) [full_card] ++ omap (emitted dateless_page) []).
Proof.
  split; [reflexivity|]. split; [reflexivity|].
  apply (no_date_drops_card dateless_page [full_card] dateless_card []).
  - reflexivity.
  - intros cls d Hcls Hread. unfold DATE_CLASSES in Hcls.
    apply elem_of_cons in Hcls as [-> | Hcls]; [vm_compute in Hread; discriminate|].
    apply elem_of_cons in Hcls as [-> | Hcls]; [vm_compute in Hread; discriminate|].
    by apply elem_of_nil in Hcls.
Defined.

(** C6, at the complete card: four filled stars give "4/5". *)
Lemma rating_resolution_witness :
  emitted (page_of []) full_card
  = Some {| date := "2 days ago"; rating := "4/5";
            text := "Great food (Services: Delivery)"; owner := Some "Thanks!" |} ∧
  rating {| date := "2 days ago"; rating := "4/5";
            text := "Great food (Services: Delivery)"; owner := Some "Thanks!" |}
  = pretty (length (replicate 4 (span FILLED_STAR_CLASS ""))) +:+ "/5".
Proof.
  assert (emitted (page_of []) full_card
          = Some {| date := "2 days ago"; rating := "4/5";
                    text := "Great food (Services: Delivery)"; owner := Some "Thanks!" |})
    as Hemitted by reflexivity.
  split; [exact Hemitted|].
  rewrite (rating_resolution (page_of []) full_card _ Hemitted). reflexivity.
Defined.

Lemma not_a_fraction_over_four (s : string) : "4/5" ≠ s +:+ "/4".
Proof.
  destruct s as [|c1 [|c2 [|c3 s]]]; cbn; try discriminate.
  destruct s; cbn; discriminate.
Qed.

(** C6 as stated fails: the card has no direct rating element and four
    filled stars; its rating is "4/5", which is not "N/A" and is no
    fraction whose denominator is the number of filled stars counted. *)
Lemma star_rating_is_out_of_five :
  stripped_text_of (page_of []) full_card RATING_TEXT_CLASS = Raise not_found ∧
  (container ← element_find_element (page_of []) full_card (CLASS_NAME STAR_CONTAINER_CLASS);
   element_find_elements (page_of []) container (CLASS_NAME FILLED_STAR_CLASS))
  = Ok (replicate 4 (span FILLED_STAR_CLASS "")) ∧
  (rating <$> emitted (page_of []) full_card) = Some "4/5" ∧
  "4/5" ≠ "N/A" ∧
  ∀ n : nat, "4/5" ≠ pretty n +:+ "/" +:+ pretty 4%nat.
Proof.
  split; [reflexivity|]. split; [reflexivity|]. split; [reflexivity|].
  split; [discriminate|]. intros n. apply not_a_fraction_over_four.
Qed.

(** C7, at a card with three service entries, and at a card with three
    entries of which the middle one is blank. *)
Lemma services_suffix_form_witness :
  (∃ r, emitted (page_of []) three_services_card = Some r ∧
        extract_services (page_of []) three_services_card
        = ["Dine in"; "Takeaway"; "Delivery"] ∧
        text r = "All good (Services: Dine in; Takeaway; Delivery)") ∧
  (∃ r, emitted (page_of []) services_card = Some r ∧
        extract_services (page_of []) services_card = ["Dine in"; "Takeaway"] ∧
        text r = "Quick and friendly (Services: Dine in; Takeaway)").
Proof.
  split.
  - destruct (emitted (page_of []) three_services_card) as [r|] eqn:Hr;
      [|vm_compute in Hr; discriminate].
    destruct (services_suffix_form (page_of []) three_services_card r Hr)
      as (body & Hbody & _ & _ & Hthree & _).
    exists r. split; [reflexivity|]. split; [reflexivity|].
    rewrite (Hthree "Dine in" "Takeaway" "Delivery" eq_refl).
    vm_compute in Hbody. injection Hbody as <-. reflexivity.
  - destruct (emitted (page_of []) services_card) as [r|] eqn:Hr;
      [|vm_compute in Hr; discriminate].
    destruct (services_suffix_form (page_of []) services_card r Hr)
      as (body & Hbody & Htext & _).
    exists r. split; [reflexivity|]. split; [reflexivity|].
    rewrite Htext. vm_compute in Hbody. injection Hbody as <-. reflexivity.
Defined.



(** C3 as stated fails for an absent count: no budget of 5 is computed,
    the floor division raises. *)
Lemma no_budget_for_none :
  compute_batches None ≠ Ok 5 ∧
  compute_batches None
  = Raise (Exn TypeError "unsupported operand type(s) for //: 'NoneType' and 'int'") ∧
  scrolls (scroll_to_load_reviews None stalling_page).2 = 0%nat.
Proof. split; [discriminate|]. split; reflexivity. Qed.



(** C10, at a page whose count element reads "0 reviews". *)
Lemma zero_count_ends_pass_witness :
  (get_total_reviews zero_count_page).1.1 = Ok (Some 0) ∧
  (main place_url zero_count_page).1.1 = Ok () ∧
  In (EvPrint "No reviews found.") (main place_url zero_count_page).2 ∧
  Forall (λ ev, harvest_step ev = false) (main place_url zero_count_page).2.
Proof.
  split; [reflexivity|].
  edestruct (zero_count_ends_pass place_url zero_count_page) as (_ & Hres & Hev & Hquiet);
    [reflexivity | reflexivity | reflexivity |].
  split; [by rewrite Hres|]. split; [|exact Hquiet].
  rewrite Hev. rewrite !in_app_iff. do 4 right. by left.
Defined.
End OnScriptedPages.

(** * Beyond the claims *)

(** ** The URL set-up *)

Lemma starts_with_inv sub s :
  starts_with sub s = true → ∃ rest, s = sub +:+ rest.
Proof.
  revert s. induction sub as [|a sub IH]; intros s; [by exists s|].
  destruct s as [|c s]; [done|]. cbn [starts_with].
  intros [->%bool_decide_eq_true [rest ->]%IH]%andb_true_iff. by exists rest.
Qed.

Lemma starts_with_app sub rest : starts_with sub (sub +:+ rest) = true.
Proof.
  induction sub as [|a sub IH]; [done|]. rewrite string_app_cons. cbn [starts_with].
  by rewrite bool_decide_eq_true_2, IH.
Qed.

Lemma take_chars_app pre rest : take_chars (String.length pre) (pre +:+ rest) = pre.
Proof.
  induction pre as [|c pre IH]; [by destruct rest|].
  rewrite string_app_cons. cbn [String.length take_chars]. by rewrite IH.
Qed.

(** [find_from] returns -1 or the position of the first occurrence. *)
Lemma find_from_found sub : ∀ s i k,
  find_from sub s i = k → 0 ≤ i → k ≠ -1 →
  ∃ pre post,
    s = pre +:+ sub +:+ post ∧ k = i + Z.of_nat (String.length pre) ∧
    ∀ pre' post', s = pre' +:+ sub +:+ post' →
                  (String.length pre ≤ String.length pre')%nat.
Proof.
  induction s as [|c s IH]; intros i k; cbn [find_from].
  - destruct (starts_with sub "") eqn:Hsw; [|by intros <-].
    apply starts_with_inv in Hsw as [rest Hrest]. intros <- _ _.
    exists "", rest. rewrite string_app_nil_l. split; [done|].
    split; [cbn; lia|]. intros; cbn; lia.
  - destruct (starts_with sub (String c s)) eqn:Hsw.
    + apply starts_with_inv in Hsw as [rest Hrest]. intros <- _ _.
      exists "", rest. rewrite string_app_nil_l. split; [done|].
      split; [cbn; lia|]. intros; cbn; lia.
    + intros Hk Hi Hne.
      destruct (IH _ _ Hk) as (pre & post & -> & -> & Hmin); [lia|done|].
      exists (String c pre), post. rewrite string_app_cons. split; [done|].
      split; [cbn [String.length]; lia|].
      intros [|c' pre'] post' Heq.
      * rewrite string_app_nil_l in Heq. rewrite Heq, starts_with_app in Hsw. done.
      * rewrite string_app_cons in Heq. injection Heq as _ Heq.
        specialize (Hmin _ _ Heq). cbn [String.length]. lia.
Qed.

Lemma find_from_absent sub : ∀ s i,
  find_from sub s i = -1 → 0 ≤ i → ∀ pre post, s ≠ pre +:+ sub +:+ post.
Proof.
  induction s as [|c s IH]; intros i; cbn [find_from].
  - destruct (starts_with sub "") eqn:Hsw; [lia|]. intros _ _ pre post Heq.
    destruct pre; [|done]. rewrite string_app_nil_l in Heq.
    by rewrite Heq, starts_with_app in Hsw.
  - destruct (starts_with sub (String c s)) eqn:Hsw; [lia|].
    intros Hk Hi [|c' pre] post Heq.
    + rewrite string_app_nil_l in Heq. by rewrite Heq, starts_with_app in Hsw.
    + rewrite string_app_cons in Heq. injection Heq as _ Heq.
      by eapply (IH (i + 1)); [|lia|].
Qed.

(** X1.  When the address contains "?entry=t", the URL used is the part of the
    address before its first occurrence, followed by "?hl=en". *)
Theorem url_cut_at_entry_marker (url : string) :
  str_find url "?entry=t" ≠ -1 →
  ∃ pre post,
    url = pre +:+ "?entry=t" +:+ post ∧
    (∀ pre' post', url = pre' +:+ "?entry=t" +:+ post' →
                   (String.length pre ≤ String.length pre')%nat) ∧
    normalize_url url = pre +:+ "?hl=en".
Proof.
  intros Hfound.
  destruct (find_from_found "?entry=t" url 0 _ eq_refl) as (pre & post & Hurl & Hk & Hmin);
    [lia|done|].
  exists pre, post. split; [done|]. split; [done|].
  unfold normalize_url. unfold str_find in *. rewrite Hk. unfold slice_to.
  replace (0 + Z.of_nat (String.length pre) <? 0) with false by lia.
  rewrite Hurl at 1 2. rewrite string_length_app.
  replace (Z.to_nat _) with (String.length pre) by lia.
  by rewrite take_chars_app.
Qed.

(** X2.  When the address does not contain "?entry=t", [find] gives -1 and the
    slice [url[0:-1]] drops the last character of the address before
    "?hl=en" is appended. *)
Theorem url_without_marker_loses_last_char (body : string) (c : ascii) :
  str_find (body +:+ String c "") "?entry=t" = -1 →
  (∀ pre post, body +:+ String c "" ≠ pre +:+ "?entry=t" +:+ post) ∧
  normalize_url (body +:+ String c "") = body +:+ "?hl=en".
Proof.
  intros Habsent. split; [by eapply find_from_absent|].
  unfold normalize_url. rewrite Habsent. unfold slice_to. cbn [Z.ltb Z.compare].
  rewrite string_length_app. cbn [String.length].
  replace (Z.to_nat _) with (String.length body) by lia.
  by rewrite take_chars_app.
Qed.

Lemma url_cut_at_entry_marker_witness :
  ∃ pre post,
    "https://www.google.com/maps/place/Cafe/@48.85,2.35,17z?entry=ttu&g_ep=abc"
    = pre +:+ "?entry=t" +:+ post ∧
    normalize_url "https://www.google.com/maps/place/Cafe/@48.85,2.35,17z?entry=ttu&g_ep=abc"
    = pre +:+ "?hl=en".
Proof.
  destruct (url_cut_at_entry_marker
              "https://www.google.com/maps/place/Cafe/@48.85,2.35,17z?entry=ttu&g_ep=abc")
    as (pre & post & Hurl & _ & Hnorm); [by vm_compute|].
  exists pre, post. split; [exact Hurl | exact Hnorm].
Defined.

Lemma url_without_marker_loses_last_char_witness :
  normalize_url ("https://www.google.com/maps/place/Caf" +:+ String "e" "")
  = "https://www.google.com/maps/place/Caf" +:+ "?hl=en".
Proof.
  apply (proj2 (url_without_marker_loses_last_char
                  "https://www.google.com/maps/place/Caf" "e" eq_refl)).
Defined.

(** ** Stripping *)

Lemma chars_inj s t : list_ascii_of_string s = list_ascii_of_string t → s = t.
Proof.
  intros Heq.
  rewrite <- (string_of_list_ascii_of_string s), <- (string_of_list_ascii_of_string t).
  by rewrite Heq.
Qed.

Lemma chars_rev_app s t :
  list_ascii_of_string (String.rev_app s t)
  = List.rev (list_ascii_of_string s) ++ list_ascii_of_string t.
Proof.
  revert t. induction s as [|c s IH]; intros t; [done|].
  cbn [String.rev_app list_ascii_of_string List.rev]. rewrite IH.
  cbn [list_ascii_of_string]. by rewrite <- app_assoc.
Qed.

Lemma chars_rev s :
  list_ascii_of_string (String.rev s) = List.rev (list_ascii_of_string s).
Proof. unfold String.rev. rewrite chars_rev_app. apply app_nil_r. Qed.

Lemma string_rev_involutive s : String.rev (String.rev s) = s.
Proof. apply chars_inj. by rewrite !chars_rev, rev_involutive. Qed.

Lemma string_rev_app s t : String.rev (s +:+ t) = String.rev t +:+ String.rev s.
Proof.
  apply chars_inj.
  by rewrite chars_rev, !list_ascii_of_string_app, !chars_rev, rev_app_distr.
Qed.

Lemma all_spaces_app s t : all_spaces (s +:+ t) = all_spaces s && all_spaces t.
Proof. unfold all_spaces. by rewrite list_ascii_of_string_app, forallb_app. Qed.

Lemma all_spaces_rev s : all_spaces (String.rev s) = all_spaces s.
Proof.
  unfold all_spaces. rewrite chars_rev.
  induction (list_ascii_of_string s) as [|c l IH]; [done|].
  cbn [List.rev forallb]. rewrite forallb_app, IH. cbn [forallb].
  by destruct (is_space c), (forallb is_space l).
Qed.

Lemma lstrip_spec s :
  ∃ ws, s = ws +:+ lstrip s ∧ all_spaces ws = true ∧
        ∀ c t, lstrip s = String c t → is_space c = false.
Proof.
  induction s as [|a s (ws & Hs & Hws & Hhead)]; [by exists ""|].
  cbn [lstrip]. destruct (is_space a) eqn:Ha.
  - exists (String a ws). rewrite string_app_cons, <- Hs. split; [done|].
    split; [|done]. unfold all_spaces in *. cbn [list_ascii_of_string forallb].
    by rewrite Ha, Hws.
  - exists "". split; [done|]. split; [done|]. by intros c t [= <- _].
Qed.

Lemma rstrip_spec s :
  ∃ ws, s = rstrip s +:+ ws ∧ all_spaces ws = true ∧
        ∀ t c, rstrip s = t +:+ String c "" → is_space c = false.
Proof.
  destruct (lstrip_spec (String.rev s)) as (ws & Hs & Hws & Hhead).
  exists (String.rev ws). unfold rstrip. split; [|split].
  - by rewrite <- string_rev_app, <- Hs, string_rev_involutive.
  - by rewrite all_spaces_rev.
  - intros t c Ht. apply (f_equal String.rev) in Ht.
    rewrite string_rev_involutive, string_rev_app in Ht.
    by apply (Hhead c (String.rev t)).
Qed.

(** [strip] removes whitespace at both ends and nothing else. *)
Lemma strip_spec s :
  ∃ ws1 ws2,
    s = ws1 +:+ strip s +:+ ws2 ∧
    all_spaces ws1 = true ∧ all_spaces ws2 = true ∧ trimmed (strip s).
Proof.
  destruct (lstrip_spec s) as (ws1 & Hs & Hws1 & Hhead).
  destruct (rstrip_spec (lstrip s)) as (ws2 & Hl & Hws2 & Hlast).
  exists ws1, ws2. unfold strip. split; [by rewrite <- Hl|].
  split; [done|]. split; [done|]. split; [|done].
  intros c t Hc. rewrite Hc, string_app_cons in Hl. by apply (Hhead c _ Hl).
Qed.

Lemma lstrip_id s : (∀ c t, s = String c t → is_space c = false) → lstrip s = s.
Proof.
  destruct s as [|c s]; [done|]. intros Hhead. cbn [lstrip].
  by rewrite (Hhead c s eq_refl).
Qed.

Lemma string_snoc_or_empty s : s = "" ∨ ∃ t c, s = t +:+ String c "".
Proof.
  destruct (String.rev s) as [|c r] eqn:Hrev.
  - left. by rewrite <- (string_rev_involutive s), Hrev.
  - right. exists (String.rev r), c.
    rewrite <- (string_rev_involutive s), Hrev.
    change (String c r) with (String c "" +:+ r). by rewrite string_rev_app.
Qed.

(** On a trimmed string [strip] changes nothing. *)
Lemma strip_id s : trimmed s → strip s = s.
Proof.
  intros [Hhead Hlast]. unfold strip. rewrite (lstrip_id s Hhead). unfold rstrip.
  destruct (string_snoc_or_empty s) as [-> | (t & c & ->)]; [done|].
  rewrite string_rev_app. change (String.rev (String c "")) with (String c "").
  rewrite string_app_cons, string_app_nil_l. cbn [lstrip].
  rewrite (Hlast t c eq_refl).
  change (String c (String.rev t)) with (String c "" +:+ String.rev t).
  by rewrite string_rev_app, string_rev_involutive.
Qed.

Lemma strip_idem s : strip (strip s) = strip s.
Proof. destruct (strip_spec s) as (? & ? & _ & _ & _ & ?). by apply strip_id. Qed.

(** ** Digits and decimal printing *)

Lemma int_digits_app acc d1 d2 :
  int_digits acc (d1 +:+ d2) = int_digits (int_digits acc d1) d2.
Proof.
  revert acc. induction d1 as [|c d1 IH]; intros acc; [done|].
  rewrite string_app_cons. cbn [int_digits]. apply IH.
Qed.

Lemma all_digits_app s t : all_digits (s +:+ t) = all_digits s && all_digits t.
Proof. unfold all_digits. by rewrite list_ascii_of_string_app, forallb_app. Qed.

Lemma pretty_N_char_digit k :
  (k < 10)%N →
  is_digit (pretty_N_char k) = true ∧
  Z.of_N (N_of_ascii (pretty_N_char k)) - 48 = Z.of_N k.
Proof.
  intros Hk.
  assert (k = 0 ∨ k = 1 ∨ k = 2 ∨ k = 3 ∨ k = 4 ∨ k = 5 ∨ k = 6 ∨ k = 7 ∨ k = 8 ∨ k = 9)%N
    as Hcases by lia.
  repeat (destruct Hcases as [-> | Hcases]; [by vm_compute|]). subst k. by vm_compute.
Qed.

Lemma pretty_N_go_digits x : ∀ s,
  ∃ d, pretty_N_go x s = d +:+ s ∧ all_digits d = true ∧
       ((0 < x)%N → d ≠ "") ∧
       ∀ acc, int_digits acc d = acc * 10 ^ Z.of_nat (String.length d) + Z.of_N x.
Proof.
  induction (N.lt_wf_0 x) as [x _ IH]. intros s.
  assert (x = 0 ∨ 0 < x)%N as [-> | Hpos] by lia.
  { exists "". rewrite pretty_N_go_0. repeat split; [lia|]. intros acc. cbn. lia. }
  rewrite pretty_N_go_step by done.
  destruct (IH (x `div` 10)%N (N.div_lt x 10 Hpos eq_refl)
              (String (pretty_N_char (x `mod` 10)) s)) as (d & Hgo & Hd & _ & Hval).
  destruct (pretty_N_char_digit (x `mod` 10)%N) as [Hdigit Hchar];
    [by apply N.mod_lt|].
  exists (d +:+ String (pretty_N_char (x `mod` 10)) "").
  split; [by rewrite Hgo, string_app_assoc|]. split.
  { rewrite all_digits_app, Hd. unfold all_digits. cbn [list_ascii_of_string forallb].
    by rewrite Hdigit. }
  split; [by destruct d|].
  intros acc. rewrite int_digits_app, Hval. cbn [int_digits]. rewrite Hchar.
  rewrite string_length_app. cbn [String.length].
  rewrite Nat2Z.inj_add, Z.pow_add_r by lia. change (10 ^ Z.of_nat 1) with 10.
  rewrite (N.div_mod x 10) at 3 by done. lia.
Qed.

(** The decimal form of a natural number is a non-empty run of digits
    that reads back as the number. *)
Lemma pretty_N_digits (n : N) :
  all_digits (pretty n) = true ∧ pretty n ≠ "" ∧ int_of_digits (pretty n) = Z.of_N n.
Proof.
  unfold pretty, pretty_N. case_decide as Hn; [by subst n|].
  destruct (pretty_N_go_digits n "") as (d & Hgo & Hd & Hne & Hval).
  rewrite Hgo, string_app_nil_r. split; [done|]. split; [apply Hne; lia|].
  unfold int_of_digits. rewrite Hval. lia.
Qed.

Lemma pretty_Z_nonneg (z : Z) : 0 ≤ z → pretty z = pretty (Z.to_N z).
Proof. intros Hz. destruct z as [|p|p]; [done|done|lia]. Qed.

Lemma take_digits_app d rest :
  all_digits d = true → starts_with_digit rest = false →
  take_digits (d +:+ rest) = d.
Proof.
  intros Hd Hrest. induction d as [|c d IH].
  - rewrite string_app_nil_l. destruct rest as [|a rest]; [done|].
    cbn in *. by rewrite Hrest.
  - unfold all_digits in *. cbn [list_ascii_of_string forallb] in Hd.
    apply andb_true_iff in Hd as [Hc Hd].
    rewrite string_app_cons. cbn [take_digits]. by rewrite Hc, IH.
Qed.

Lemma re_search_digits_app pre d rest :
  no_digit pre = true → all_digits d = true → d ≠ "" →
  starts_with_digit rest = false →
  re_search_digits (pre +:+ d +:+ rest) = Some d.
Proof.
  intros Hpre Hd Hne Hrest. induction pre as [|c pre IH].
  - rewrite string_app_nil_l. destruct d as [|c d]; [done|].
    rewrite string_app_cons. cbn [re_search_digits].
    unfold all_digits in Hd. cbn [list_ascii_of_string forallb] in Hd.
    apply andb_true_iff in Hd as [Hc Hd]. rewrite Hc.
    by rewrite take_digits_app.
  - unfold no_digit in *. cbn [list_ascii_of_string forallb] in Hpre.
    apply andb_true_iff in Hpre as [Hc Hpre]. apply negb_true_iff in Hc.
    rewrite string_app_cons. cbn [re_search_digits]. rewrite Hc. by apply IH.
Qed.

Lemma take_digits_all_digits s : all_digits (take_digits s) = true.
Proof.
  induction s as [|c s IH]; [done|]. cbn [take_digits].
  destruct (is_digit c) eqn:Hc; [|done].
  unfold all_digits in *. cbn [list_ascii_of_string forallb]. by rewrite Hc, IH.
Qed.

Lemma re_search_digits_all_digits text d :
  re_search_digits text = Some d → all_digits d = true.
Proof.
  induction text as [|c s IH]; [done|]. cbn [re_search_digits].
  destruct (is_digit c) eqn:Hc; [|done]. intros [= <-].
  pose proof (take_digits_all_digits s) as Hs.
  unfold all_digits in *. cbn [list_ascii_of_string forallb]. by rewrite Hc, Hs.
Qed.

Lemma int_digits_nonneg d : ∀ acc,
  all_digits d = true → 0 ≤ acc → 0 ≤ int_digits acc d.
Proof.
  induction d as [|c d IH]; intros acc Hd Hacc; [done|].
  unfold all_digits in *. cbn [list_ascii_of_string forallb] in Hd.
  apply andb_true_iff in Hd as [Hc Hd]. cbn [int_digits]. apply IH; [done|].
  unfold is_digit in Hc. apply andb_true_iff in Hc as [Hlo _].
  apply N.leb_le in Hlo. lia.
Qed.

(** X5.  [parse_first_int] reads the leftmost run of digits and nothing after
    it: in "1,234 reviews" the run is "1". *)
Theorem parse_first_int_leading_run (pre d rest : string) :
  no_digit pre = true → all_digits d = true → d ≠ "" →
  starts_with_digit rest = false →
  parse_first_int (pre +:+ d +:+ rest) = Ok (int_of_digits d).
Proof.
  intros Hpre Hd Hne Hrest. unfold parse_first_int.
  by rewrite re_search_digits_app.
Qed.

Lemma parse_first_int_leading_run_witness :
  parse_first_int ("(" +:+ "1" +:+ ",234 reviews)") = Ok 1.
Proof. by apply (parse_first_int_leading_run "(" "1" ",234 reviews)"). Defined.

(** X6.  Printing a count in decimal and parsing it back gives the count,
    whatever digit-free text precedes it and whatever non-digit follows:
    the line "Found n reviews." reads back as n. *)
Theorem parse_first_int_reads_back (pre rest : string) (n : Z) :
  0 ≤ n → no_digit pre = true → starts_with_digit rest = false →
  parse_first_int (pre +:+ pretty n +:+ rest) = Ok n.
Proof.
  intros Hn Hpre Hrest. rewrite (pretty_Z_nonneg n Hn).
  destruct (pretty_N_digits (Z.to_N n)) as (Hd & Hne & Hval).
  unfold parse_first_int. rewrite re_search_digits_app by done.
  rewrite Hval. f_equal. lia.
Qed.

Lemma parse_first_int_reads_back_witness :
  parse_first_int ("Found " +:+ pretty 1280 +:+ " reviews.") = Ok 1280.
Proof. by apply (parse_first_int_reads_back "Found " " reviews." 1280). Defined.

Lemma parse_first_int_nonneg text n : parse_first_int text = Ok n → 0 ≤ n.
Proof.
  unfold parse_first_int.
  destruct (re_search_digits text) as [d|] eqn:Hd; [|done]. intros [= <-].
  apply int_digits_nonneg; [|done]. by eapply re_search_digits_all_digits.
Qed.

(** ** Title, count probe, tab and expansion *)
Section SessionSteps.
Context {B E : Type} `{Browser B E}.
Implicit Types (b : B) (l : list (event E)).

Lemma bind_run {A C} (m : M A) (f : A → M C) b :
  (m ≫= f) b =
    match m b return result C * B * list (event E) with
    | (Ok a, b1, l1) => match f a b1 with (r, b2, l2) => (r, b2, l1 ++ l2) end
    | (Raise e, b1, l1) => (Raise e, b1, l1)
    end.
Proof. reflexivity. Qed.

Lemma unknown_place_trimmed : trimmed "Unknown Place".
Proof.
  split.
  - by intros c t [= <- _].
  - intros t c Ht. apply (f_equal String.rev) in Ht. rewrite string_rev_app in Ht.
    by injection Ht as <- _.
Qed.

Lemma get_place_title_nonempty b place_title b1 l :
  get_place_title b = (Ok place_title, b1, l) → place_title ≠ "".
Proof.
  unfold get_place_title, try_except, mbind, M_bind, find_element, text_of, observe.
  destruct (driver_find_element b _) as [el|e]; [|by intros [= <- _ _]].
  destruct (element_text b el) as [raw|e]; [|by intros [= <- _ _]].
  destruct (truthy (strip raw)) eqn:Htruthy; intros [= <- _ _]; [|done].
  by destruct (strip raw).
Qed.

(** X3.  [get_place_title] never raises, leaves the session as it found
    it and never returns an empty title.  When the title element is
    found and read and its stripped text is not empty, the title is
    that stripped text; in every other case (no element, no text, blank
    text) it is "Unknown Place".  A failed lookup or read is reported
    on one printed line.  The title is trimmed. *)
Theorem place_title_never_empty b :
  let read := el ← driver_find_element b (XPATH PLACE_TITLE_XPATH); element_text b el in
  ∃ place_title,
    get_place_title b
    = (Ok place_title, b,
       EvFindElement (XPATH PLACE_TITLE_XPATH) ::
       match read with
       | Ok _ => []
       | Raise e => [EvPrint ("Failed to extract place title: " +:+ exn_str e)]
       end) ∧
    place_title
    = match read with
      | Ok raw => if truthy (strip raw) then strip raw else "Unknown Place"
      | Raise _ => "Unknown Place"
      end ∧
    (∀ raw, read = Ok raw → strip raw ≠ "" → place_title = strip raw) ∧
    ((∀ raw, read = Ok raw → strip raw = "") → place_title = "Unknown Place") ∧
    place_title ≠ "" ∧ trimmed place_title.
Proof.
  intros read. subst read.
  unfold get_place_title, try_except, mbind, M_bind, find_element, text_of, observe.
  unfold result_bind.
  destruct (driver_find_element b _) as [el|e] eqn:Hel.
  2:{ eexists. split; [done|]. split; [done|]. split; [done|]. split; [done|].
      split; [done|]. apply unknown_place_trimmed. }
  destruct (element_text b el) as [raw|e] eqn:Hraw.
  2:{ eexists. split; [done|]. split; [done|]. split; [done|]. split; [done|].
      split; [done|]. apply unknown_place_trimmed. }
  destruct (truthy (strip raw)) eqn:Htruthy.
  - eexists. split; [done|]. split; [done|].
    split; [by intros ? [= <-]|].
    split. { intros Hblank. rewrite (Hblank raw eq_refl) in Htruthy. done. }
    split; [by destruct (strip raw)|].
    by destruct (strip_spec raw) as (? & ? & _ & _ & _ & ?).
  - eexists. split; [done|]. split; [done|].
    split. { intros ? [= <-] Hne. by destruct (strip raw). }
    split; [done|]. split; [done|]. apply unknown_place_trimmed.
Qed.

Lemma read_count_nonneg xpath b n b1 l :
  read_count xpath b = (Ok n, b1, l) → 0 ≤ n.
Proof.
  unfold read_count, mbind, M_bind, find_element, click, sleep, text_of, observe, lift.
  destruct (driver_find_element b _) as [el|e]; [|done].
  destruct (element_click el b) as [[[]|e] b2]; [|done].
  destruct (element_text _ el) as [t|e]; [|done].
  destruct (parse_first_int t) as [k|e] eqn:Hparse; [|done].
  intros [= <- _ _]. by eapply parse_first_int_nonneg.
Qed.

(** X4.  What [get_total_reviews] can give.  A count is never negative and is
    what the first attempt read or, after any fault of the first
    attempt, what the second attempt read.  [None] and an exception both
    mean that the two attempts faulted, one after the other: [None] when
    the second fault is a missing element, an attribute error or a value
    error, an exception (the second fault itself) otherwise. *)
Theorem count_probe_outcomes b :
  match get_total_reviews b with
  | (Ok (Some n), b2, l) =>
      0 ≤ n ∧
      (read_count REVIEWS_COUNT_XPATH b = (Ok n, b2, l) ∨
       ∃ e1 b1 l1 l2,
         read_count REVIEWS_COUNT_XPATH b = (Raise e1, b1, l1) ∧
         read_count REVIEWS_COUNT_XPATH2 b1 = (Ok n, b2, l2) ∧ l = l1 ++ l2)
  | (outcome, b2, l) =>
      ∃ e1 b1 l1 e2 l2,
        read_count REVIEWS_COUNT_XPATH b = (Raise e1, b1, l1) ∧
        read_count REVIEWS_COUNT_XPATH2 b1 = (Raise e2, b2, l2) ∧
        if bool_decide (exn_kind_of e2 ∈ [NoSuchElementException; AttributeError; ValueError])
        then outcome = Ok None ∧
             l = l1 ++ l2 ++ [EvPrint ("Failed to extract number of reviews: " +:+ exn_str e2)]
        else outcome = Raise e2 ∧ l = l1 ++ l2
  end.
Proof.
  unfold get_total_reviews, try_except_only, try_except. rewrite !bind_run.
  destruct (read_count REVIEWS_COUNT_XPATH b) as [[[n|e1] b1] l1] eqn:H1.
  { cbn. rewrite app_nil_r. split; [by eapply read_count_nonneg|by left]. }
  rewrite bind_run.
  destruct (read_count REVIEWS_COUNT_XPATH2 b1) as [[[n|e2] b2] l2] eqn:H2.
  { cbn. rewrite app_nil_r. split; [by eapply read_count_nonneg|].
    right. by eexists _, _, _, _. }
  destruct (bool_decide (exn_kind_of e2 ∈ _)) eqn:Hkind.
  - cbn. eexists e1, b1, l1, e2, l2. rewrite Hkind. by rewrite <- app_assoc.
  - eexists e1, b1, l1, e2, l2. by rewrite Hkind.
Qed.

(** X7.  [click_review_tab] is best effort: it never raises, whatever fails,
    and it clicks at most one element. *)
Theorem click_review_tab_best_effort b :
  (click_review_tab b).1.1 = Ok () ∧ (length (clicked (click_review_tab b).2) ≤ 1)%nat.
Proof.
  unfold click_review_tab, try_except, mbind, M_bind.
  unfold find_element, sub_elements, observe, click, sleep, print, emit.
  destruct (driver_find_element b (CLASS_NAME CONTAINER_CLASS_RWPXGD)) as [container|e];
    [|cbn; split; [done|lia]].
  destruct (element_find_elements b container (TAG_NAME "button")) as [buttons|e];
    [|cbn; split; [done|lia]].
  destruct (driver_find_element b (XPATH (review_tab_xpath buttons))) as [review_button|e];
    [|cbn; split; [done|lia]].
  destruct (element_click review_button b) as [[[]|e] b1]; cbn; (split; [done|lia]).
Qed.

Lemma script_clicks_app l1 l2 :
  script_clicks (l1 ++ l2) = script_clicks l1 ++ script_clicks l2.
Proof. apply omap_app. Qed.

Lemma expand_loop_spec (buttons : list E) : ∀ b,
  (expand_loop buttons b).1.1 = Ok () ∧
  script_clicks (expand_loop buttons b).2 = buttons.
Proof.
  induction buttons as [|btn rest IH]; intros b; [done|].
  cbn [expand_loop]. unfold mbind, M_bind, try_except, execute_script, sleep, print, emit.
  destruct (driver_execute_script CLICK_SCRIPT [btn] b) as [[v|e] b1].
  - specialize (IH (time_sleep 200 b1)).
    destruct (expand_loop rest _) as [[r b2] l2]. cbn [fst snd] in *.
    destruct IH as [-> Hclicks]. split; [done|].
    rewrite script_clicks_app, Hclicks. cbn.
    by rewrite bool_decide_eq_true_2.
  - specialize (IH b1).
    destruct (expand_loop rest _) as [[r b2] l2]. cbn [fst snd] in *.
    destruct IH as [-> Hclicks]. split; [done|].
    rewrite script_clicks_app, Hclicks. cbn.
    by rewrite bool_decide_eq_true_2.
Qed.

(** X8.  [expand_show_more_buttons] never raises.  When the buttons can be
    enumerated, the click script is run on every one of them, once each
    and in order, whether or not earlier clicks failed; when they cannot,
    no script is run. *)
Theorem expand_reaches_every_button b :
  (expand_show_more_buttons b).1.1 = Ok () ∧
  script_clicks (expand_show_more_buttons b).2 =
    match driver_find_elements b (CLASS_NAME SHOW_MORE_BUTTON_CLASS) with
    | Ok buttons => buttons
    | Raise _ => []
    end.
Proof.
  unfold expand_show_more_buttons, try_except, mbind, M_bind, find_elements.
  destruct (driver_find_elements b _) as [buttons|e]; [|done].
  destruct (expand_loop_spec buttons b) as [Hres Hclicks].
  destruct (expand_loop buttons b) as [[r b2] l2]. cbn [fst snd] in *.
  by rewrite Hres.
Qed.
End SessionSteps.

(** ** How the scroll loader ends *)
Section LoaderEnds.
Context {B E : Type} `{Browser B E}.
Implicit Types (b : B) (l : list (event E)).

Lemma scroll_loop_starts n i last_height b :
  (1 ≤ scrolls (scroll_loop (seq i (S n)) last_height b).2)%nat.
Proof.
  cbn [seq]. rewrite scroll_loop_step.
  destruct (driver_execute_script SCROLL_SCRIPT [] b) as [[v|e] b1].
  2:{ cbn [snd]. by rewrite scrolls_scroll_fault. }
  destruct (driver_execute_script MEASURE_SCRIPT [] _) as [[h|e] b2].
  2:{ cbn [snd]. by rewrite scrolls_iteration. }
  destruct (py_eq h last_height).
  - cbn [snd]. rewrite scrolls_app, scrolls_iteration. lia.
  - destruct (scroll_loop _ h b2) as [[r b3] l]. cbn [snd].
    rewrite scrolls_app, scrolls_iteration. lia.
Qed.

Lemma scroll_loop_ends n : ∀ i last_height b r b' l,
  scroll_loop (seq i n) last_height b = (r, b', l) →
  match r with
  | Ok _ =>
      (∃ k, halted_after l k) ∨ (scrolls l = n ∧ length (measurements l) = n)
  | Raise e => ∃ pre script, l = pre ++ [EvScript script [] (Raise e)]
  end.
Proof.
  induction n as [|n IH]; intros i last_height b r b' l.
  { intros [= <- _ <-]. by right. }
  cbn [seq]. rewrite scroll_loop_step.
  destruct (driver_execute_script SCROLL_SCRIPT [] b) as [[v|e] b1].
  2:{ intros [= <- _ <-]. by exists [], SCROLL_SCRIPT. }
  destruct (driver_execute_script MEASURE_SCRIPT [] (time_sleep 2000 b1))
    as [[h|e] b2].
  2:{ intros [= <- _ <-].
      by exists [EvScript SCROLL_SCRIPT [] (Ok v); EvSleep 2000], MEASURE_SCRIPT. }
  destruct (py_eq h last_height).
  - intros Hrun. pose proof (f_equal (λ x, x.1.1) Hrun) as Hr.
    pose proof (f_equal snd Hrun) as Hl. cbn [fst snd] in Hr, Hl. subst r l. left. exists (i + 1)%nat.
    apply halted_after_app. right. by apply halted_after_print.
  - destruct (scroll_loop (seq (S i) n) h b2) as [[r' b3] l'] eqn:Hrest.
    intros Hrun. pose proof (f_equal (λ x, x.1.1) Hrun) as Hr.
    pose proof (f_equal snd Hrun) as Hl. cbn [fst snd] in Hr, Hl. subst r l. specialize (IH _ _ _ _ _ _ Hrest).
    destruct r' as [[]|e].
    + destruct IH as [[k Hk] | [Hs Hm]].
      * left. exists k. apply halted_after_app. by right.
      * right. rewrite scrolls_app, measurements_app, scrolls_iteration,
          measurements_iteration. cbn [app length]. lia.
    + destruct IH as (pre & script & ->).
      exists (iteration_events v (Ok h) ++ pre), script. by rewrite app_assoc.
Qed.

(** X9.  Every run of the loader does at least one scroll, and it ends in one
    of three ways.  It returns after a stall (a break in some iteration)
    or after using up the whole budget, every iteration measured, and in
    both cases the closing line is the last thing printed; or a script
    fault stops it at once, the fault being what the loader raises. *)
Theorem loader_end_states (total : Z) b :
  let run := scroll_to_load_reviews (Some total) b in
  let budget := Z.to_nat (Z.max (total `div` 10 + 2) 5) in
  (1 ≤ scrolls run.2)%nat ∧
  match run.1.1 with
  | Ok _ =>
      (∃ pre, run.2 = pre ++ [EvPrint "Finished scrolling. All reviews should be loaded."]) ∧
      ((∃ k, halted_after run.2 k) ∨
       (scrolls run.2 = budget ∧ length (measurements run.2) = budget))
  | Raise e => ∃ pre script, run.2 = pre ++ [EvScript script [] (Raise e)]
  end.
Proof.
  intros run budget. subst run. rewrite scroll_to_load_reviews_run. fold budget.
  assert (∃ n, budget = S n) as [n Hn].
  { exists (Nat.pred budget). subst budget. lia. }
  pose proof (scroll_loop_starts n 0 (PyInt 0) b) as Hstart. rewrite <- Hn in Hstart.
  destruct (scroll_loop (seq 0 budget) (PyInt 0) b) as [[[[]|e] b1] l] eqn:Hloop;
    apply scroll_loop_ends in Hloop; cbn [fst snd] in *.
  - split; [rewrite scrolls_app; lia|]. split; [by eexists|].
    destruct Hloop as [[k Hk] | [Hs Hm]].
    + left. exists k. apply halted_after_app. by left.
    + right. rewrite scrolls_app, measurements_app. cbn. rewrite app_nil_r. lia.
  - done.
Qed.

(** X10.  A page without a scrollable pane measures 0 at once, which equals the
    initial [last_height]: the loader stops after its first iteration,
    for every expected count. *)
Theorem zero_extent_stops_at_once (total : Z) b v b1 b2 :
  driver_execute_script SCROLL_SCRIPT [] b = (Ok v, b1) →
  driver_execute_script MEASURE_SCRIPT [] (time_sleep 2000 b1) = (Ok (PyInt 0), b2) →
  scroll_to_load_reviews (Some total) b
  = (Ok (), b2,
     [EvScript SCROLL_SCRIPT [] (Ok v); EvSleep 2000;
      EvScript MEASURE_SCRIPT [] (Ok (PyInt 0));
      EvPrint (no_more_line 1);
      EvPrint "Finished scrolling. All reviews should be loaded."]).
Proof.
  intros Hscroll Hmeasure. rewrite scroll_to_load_reviews_run.
  assert (∃ n, Z.to_nat (Z.max (total `div` 10 + 2) 5) = S n) as [n ->].
  { exists (Nat.pred (Z.to_nat (Z.max (total `div` 10 + 2) 5))). lia. }
  cbn [seq]. rewrite scroll_loop_step, Hscroll, Hmeasure. done.
Qed.
End LoaderEnds.

Lemma zero_extent_stops_at_once_witness :
  scrolls (scroll_to_load_reviews (Some 500) (Scripted.page_of [])).2 = 1%nat.
Proof.
  rewrite (zero_extent_stops_at_once 500 (Scripted.page_of []) PyNone
             (Scripted.page_of []) (Scripted.page_of []));
    reflexivity.
Defined.

(** ** More on the harvest *)
Section HarvestFacts.
Context {B E : Type} `{Browser B E}.
Implicit Types (b : B) (card : E).

Lemma omap_length_le {A C} (f : A → option C) (l : list A) :
  (length (omap f l) ≤ length l)%nat.
Proof. induction l as [|a l IH]; [done|]. cbn. destruct (f a); cbn; lia. Qed.

(** X11.  With the cards enumerated, [extract_reviews_data] always returns: no
    card can abort the batch.  It leaves the session as it was, its only
    driver call is the enumeration, it prints nothing, and it returns at
    most one record per card, in the order of the cards. *)
Theorem harvest_never_aborts b (cards : list E) :
  driver_find_elements b (CLASS_NAME REVIEW_CONTAINER_CLASS) = Ok cards →
  ∃ reviews,
    extract_reviews_data b
    = (Ok reviews, b, [EvFindElements (CLASS_NAME REVIEW_CONTAINER_CLASS)]) ∧
    (length reviews ≤ length cards)%nat ∧
    reviews = omap (emitted b) cards.
Proof.
  intros Hcards. exists (omap (emitted b) cards).
  rewrite extract_reviews_data_spec, Hcards. split; [done|].
  split; [apply omap_length_le | done].
Qed.

Lemma extract_date_some b card d :
  extract_date b card = Some d → ∃ raw, d = strip raw.
Proof.
  unfold extract_date, DATE_CLASSES. rewrite date_loop_two.
  destruct (stripped_text_of b card "rsqaWe") as [d1|] eqn:H1.
  - intros [= <-]. apply stripped_text_of_ok in H1 as (? & raw & _ & _ & ->). eauto.
  - destruct (stripped_text_of b card "xRkPPb") as [d2|] eqn:H2; [|done].
    intros [= <-]. apply stripped_text_of_ok in H2 as (? & raw & _ & _ & ->). eauto.
Qed.

(** X12.  The date of an emitted record is never empty and carries no
    whitespace at either end; an owner reply, when there is one, is
    trimmed as well (it may be empty). *)
Theorem record_fields_trimmed b card r :
  emitted b card = Some r →
  date r ≠ "" ∧ trimmed (date r) ∧ ∀ reply, owner r = Some reply → trimmed reply.
Proof.
  intros (body & d & _ & Hd & Ht & ->)%emitted_inv. cbn [date owner].
  split; [by destruct d|]. split.
  - apply extract_date_some in Hd as [raw ->].
    by destruct (strip_spec raw) as (? & ? & _ & _ & _ & ?).
  - intros reply. unfold extract_owner, mbind, result_bind.
    destruct (element_find_element b card (CLASS_NAME OWNER_BLOCK_CLASS)) as [blk|]; [|done].
    destruct (stripped_text_of b blk REVIEW_TEXT_CLASS) as [o|] eqn:Ho; [|done].
    intros [= <-]. apply stripped_text_of_ok in Ho as (? & raw & _ & _ & ->).
    by destruct (strip_spec raw) as (? & ? & _ & _ & _ & ?).
Qed.

Lemma read_until_fault_app_fault {A} (pre : list (result A)) e post :
  read_until_fault (pre ++ Raise e :: post) = read_until_fault pre.
Proof.
  induction pre as [|[a|e'] pre IH]; [done| |done]. cbn. by rewrite IH.
Qed.

(** X13.  The service entries are read inside one [try]: at the first entry
    whose text cannot be read the loop is left, and the entries after it
    are never collected, readable or not. *)
Theorem services_stop_at_unreadable_entry b card svc_wrapper (pre post : list E) bad e :
  element_find_element b card (CLASS_NAME SERVICES_PARENT_CLASS) = Ok svc_wrapper →
  element_find_elements b svc_wrapper (XPATH "./div[position()>1]")
  = Ok (pre ++ bad :: post) →
  stripped_text_of b bad SERVICES_ENTRY_CLASS = Raise e →
  extract_services b card
  = List.filter truthy
      (read_until_fault
         (map (λ entry, stripped_text_of b entry SERVICES_ENTRY_CLASS) pre)).
Proof.
  intros Hwrapper Hentries Hbad.
  unfold extract_services, mbind, result_bind. rewrite Hwrapper, Hentries.
  rewrite services_loop_spec, map_app. cbn [map app]. rewrite Hbad.
  by rewrite read_until_fault_app_fault.
Qed.
End HarvestFacts.

Lemma harvest_never_aborts_witness :
  ∃ reviews,
    extract_reviews_data Scripted.two_cards_page
    = (Ok reviews, Scripted.two_cards_page,
       [EvFindElements (CLASS_NAME REVIEW_CONTAINER_CLASS)]) ∧
    (length reviews ≤ 2)%nat.
Proof.
  destruct (harvest_never_aborts Scripted.two_cards_page
              [Scripted.full_card; Scripted.textless_card])
    as (reviews & Hrun & Hlen & _); [reflexivity|].
  exists reviews. split; [exact Hrun | exact Hlen].
Defined.

Lemma record_fields_trimmed_witness :
  ∃ r, emitted (Scripted.page_of []) Scripted.full_card = Some r ∧
       date r ≠ "" ∧ trimmed (date r).
Proof.
  destruct (emitted (Scripted.page_of []) Scripted.full_card) as [r|] eqn:Hr;
    [|vm_compute in Hr; discriminate].
  destruct (record_fields_trimmed _ _ r Hr) as (Hne & Htrim & _).
  exists r. split; [reflexivity|]. split; [exact Hne | exact Htrim].
Defined.

Lemma services_stop_at_unreadable_entry_witness :
  extract_services (Scripted.page_of []) broken_services_card = ["Dine in"].
Proof.
  rewrite (services_stop_at_unreadable_entry (Scripted.page_of []) broken_services_card
             (Scripted.div SERVICES_PARENT_CLASS
                [ Scripted.Elem "div" [] "Services" [];
                  Scripted.Elem "div" [] "" [Scripted.span SERVICES_ENTRY_CLASS "Dine in"];
                  Scripted.Elem "div" [] "" [];
                  Scripted.Elem "div" [] "" [Scripted.span SERVICES_ENTRY_CLASS "Takeaway"] ])
             [Scripted.Elem "div" [] "" [Scripted.span SERVICES_ENTRY_CLASS "Dine in"]]
             [Scripted.Elem "div" [] "" [Scripted.span SERVICES_ENTRY_CLASS "Takeaway"]]
             (Scripted.Elem "div" [] "" []) Scripted.not_found);
    reflexivity.
Defined.

(** ** How [main] closes *)
Section MainCloses.
Context {B E : Type} `{Browser B E}.
Implicit Types (b : B) (l : list (event E)).

Local Abbreviation calm := (Forall (λ ev : event E, closing_step ev = false)).

Lemma calm_navigate url b : calm (navigate_to_url url b).2.
Proof.
  unfold navigate_to_url, mbind, M_bind, get, sleep.
  destruct (driver_get url b) as [[[]|e] b1]; cbn; repeat constructor.
Qed.

Lemma calm_print line b : calm (print line b).2.
Proof. cbn. repeat constructor. Qed.

Lemma calm_title b : calm (get_place_title b).2.
Proof.
  unfold get_place_title. apply events_try_except.
  - unfold mbind, M_bind, find_element, text_of, observe.
    destruct (driver_find_element b _) as [el|e]; [|repeat constructor].
    destruct (element_text b el); cbn; repeat constructor.
  - intros e b1. cbn. repeat constructor.
Qed.

Lemma calm_read_count xpath b : calm (read_count xpath b).2.
Proof.
  unfold read_count, mbind, M_bind, find_element, click, sleep, text_of, observe, lift.
  destruct (driver_find_element b _) as [el|e]; [|repeat constructor].
  destruct (element_click el b) as [[[]|e] b1]; [|repeat constructor].
  destruct (element_text _ el) as [t|e]; [|repeat constructor].
  destruct (parse_first_int t); cbn; repeat constructor.
Qed.

Lemma calm_probe b : calm (get_total_reviews b).2.
Proof.
  unfold get_total_reviews. apply events_try_except_only.
  - apply events_try_except.
    + apply events_bind; [apply calm_read_count|]. intros; cbn; constructor.
    + intros _ b1. apply events_bind; [apply calm_read_count|].
      intros; cbn; constructor.
  - intros e b1. cbn. repeat constructor.
Qed.

Lemma calm_tab b : calm (click_review_tab b).2.
Proof.
  unfold click_review_tab. apply events_try_except; [|intros; apply calm_print].
  unfold mbind, M_bind, find_element, sub_elements, observe, click, sleep.
  destruct (driver_find_element b (CLASS_NAME CONTAINER_CLASS_RWPXGD)) as [container|e];
    [|repeat constructor].
  destruct (element_find_elements b container (TAG_NAME "button")) as [buttons|e];
    [|repeat constructor].
  destruct (driver_find_element b (XPATH (review_tab_xpath buttons))) as [review_button|e];
    [|repeat constructor].
  destruct (element_click review_button b) as [[[]|e] b1]; cbn; repeat constructor.
Qed.

Lemma calm_scroll_loop (iterations : list nat) : ∀ last_height b,
  calm (scroll_loop iterations last_height b).2.
Proof.
  induction iterations as [|i rest IH]; intros last_height b; [constructor|].
  rewrite scroll_loop_step.
  destruct (driver_execute_script SCROLL_SCRIPT [] b) as [[v|e] b1];
    [|repeat constructor].
  destruct (driver_execute_script MEASURE_SCRIPT [] _) as [[h|e] b2];
    [|repeat constructor].
  destruct (py_eq h last_height); [repeat constructor|].
  specialize (IH h b2). destruct (scroll_loop rest h b2) as [[r b3] l].
  cbn [snd] in *. apply Forall_app. split; [repeat constructor | done].
Qed.

Lemma calm_scroll total_reviews b : calm (scroll_to_load_reviews total_reviews b).2.
Proof.
  unfold scroll_to_load_reviews. apply events_bind; [constructor|]. intros batches b1.
  apply events_bind; [apply calm_scroll_loop|]. intros; apply calm_print.
Qed.

Lemma calm_expand_loop (buttons : list E) : ∀ b, calm (expand_loop buttons b).2.
Proof.
  induction buttons as [|btn rest IH]; intros b; [constructor|].
  cbn [expand_loop]. apply events_bind; [|by intros].
  apply events_try_except; [|intros; apply calm_print].
  unfold mbind, M_bind, execute_script, sleep.
  destruct (driver_execute_script CLICK_SCRIPT [btn] b) as [[v|e] b1];
    cbn; repeat constructor.
Qed.

Lemma calm_expand b : calm (expand_show_more_buttons b).2.
Proof.
  unfold expand_show_more_buttons.
  apply events_try_except; [|intros; apply calm_print].
  apply events_bind; [repeat constructor|]. intros; apply calm_expand_loop.
Qed.

Lemma calm_extract b : calm (extract_reviews_data b).2.
Proof.
  rewrite extract_reviews_data_spec.
  destruct (driver_find_elements b _); repeat constructor.
Qed.

Lemma shape_bind {A} P (m : M A) (f : A → M unit) b :
  calm (m b).2 →
  (∀ a b1 l1, m b = (Ok a, b1, l1) → closing_shape P (f a b1).2) →
  closing_shape P ((m ≫= f) b).2.
Proof.
  intros Hm Hf. rewrite bind_run.
  destruct (m b) as [[[a|e] b1] l1] eqn:Hrun; [|by left].
  specialize (Hf a b1 l1 eq_refl).
  destruct (f a b1) as [[r b2] l2]. cbn [snd] in *.
  destruct Hf as [Hcalm | [(pre & -> & Hpre) | (pre & reviews & title & -> & Hpre & HP)]].
  - left. by apply Forall_app.
  - right. left. exists (l1 ++ pre). split; [by rewrite app_assoc|].
    by apply Forall_app.
  - right. right. exists (l1 ++ pre), reviews, title.
    split; [by rewrite app_assoc|]. split; [by apply Forall_app | done].
Qed.

Lemma main_body_closes URL b :
  closing_shape
    (λ reviews title,
       ∃ b6 l (cards : list E) b7,
         pass_to_harvest URL b title b6 l cards ∧
         driver_quit b6 = (Ok (), b7) ∧
         reviews = omap (emitted b6) cards)
    (main_body URL b).2.
Proof.
  unfold main_body.
  apply shape_bind; [apply calm_navigate|]. intros [] b1 l1 Hnav.
  apply shape_bind; [apply calm_title|]. intros place_title b2 l2 Htitle.
  apply shape_bind; [apply calm_print|]. intros [] bp1 lp1 [= <- _].
  apply shape_bind; [apply calm_print|]. intros [] bp2 lp2 [= <- _].
  apply shape_bind; [apply calm_print|]. intros [] bp3 lp3 [= <- _].
  apply shape_bind; [apply calm_probe|]. intros total_reviews b3 l3 Hprobe.
  destruct total_reviews as [n|]; [|left; apply calm_print].
  destruct (truthy_count (Some n)) eqn:Hn; [|left; apply calm_print].
  apply shape_bind; [apply calm_tab|]. intros [] b4 l4 Htab.
  apply shape_bind; [apply calm_scroll|]. intros [] b5 l5 Hscroll.
  apply shape_bind; [apply calm_expand|]. intros [] b6 l6 Hexpand.
  apply shape_bind; [apply calm_extract|]. intros reviews_data b10 l10 Hextract.
  rewrite extract_reviews_data_spec in Hextract.
  destruct (driver_find_elements b6 _) as [cards|] eqn:Hcards; [|done].
  injection Hextract as <- <- _.
  rewrite bind_run. unfold quit, save_reviews_to_file, emit.
  destruct (driver_quit b6) as [[[]|e] b7] eqn:Hquit; cbn [snd].
  - right. right. exists [], (omap (emitted b6) cards), place_title.
    split; [done|]. split; [constructor|].
    eexists b6, _, cards, b7. split; [|done].
    exists b1, l1, b2, l2, n, b3, l3, b4, l4, b5, l5, l6.
    repeat (split; [done|]). split; [|done].
    cbn in Hn. by apply negb_true_iff, Z.eqb_neq in Hn.
  - right. left. by exists [].
Qed.

Lemma calm_no_save l reviews title :
  calm l → ¬ In (EvSave reviews title) l.
Proof.
  intros Hcalm Hin. eapply Forall_forall in Hcalm; [|exact Hin]. done.
Qed.

(** X14.  [main] always ends by quitting the driver, and before that final
    quit it has made no closing step, or one quit, or one quit followed
    by one hand-over to persistence.  A pass that comes to the end of
    the extraction (navigation and probe succeeded with a count that is
    not 0; tab activation, scrolling and expansion ran in this order;
    the cards were enumerated in the session expansion left) quits the
    driver and, if that quit succeeds, hands over the harvest of those
    cards under the title read at the start, which is not empty, and
    quits again; if that quit fails, nothing is handed over.  There is
    no other hand-over: whatever reviews and title a run hands over,
    they are the harvest and the title of such a pass whose first quit
    succeeded. *)
Theorem main_closes URL b :
  (∃ pre,
     Forall (λ ev, closing_step ev = false) pre ∧
     ((main URL b).2 = pre ++ [EvQuit] ∨
      (main URL b).2 = pre ++ [EvQuit; EvQuit] ∨
      ∃ reviews title, (main URL b).2 = pre ++ [EvQuit; EvSave reviews title; EvQuit])) ∧
  (∀ place_title b6 l (cards : list E),
     pass_to_harvest URL b place_title b6 l cards →
     place_title ≠ "" ∧
     (main URL b).2
     = l ++ EvQuit ::
       match (driver_quit b6).1 with
       | Ok _ => [EvSave (omap (emitted b6) cards) place_title; EvQuit]
       | Raise _ => [EvQuit]
       end) ∧
  (∀ reviews title,
     In (EvSave reviews title) (main URL b).2 →
     ∃ b6 l (cards : list E) b7,
       pass_to_harvest URL b title b6 l cards ∧
       driver_quit b6 = (Ok (), b7) ∧
       reviews = omap (emitted b6) cards).
Proof.
  assert (∀ b1, (quit b1).2 = [EvQuit (E:=E)]) as Hquit.
  { intros b1. unfold quit. by destruct (driver_quit b1) as [[[]|e] b2]. }
  assert (∀ (r : result unit) b1 (k : list (event E)),
            (match quit b1 with
             | (Ok _, b2, l2) => (r, b2, k ++ l2)
             | (Raise e, b2, l2) => (Raise e, b2, k ++ l2)
             end).2 = k ++ [EvQuit]) as Hend.
  { intros r b1 k. specialize (Hquit b1).
    destruct (quit b1) as [[[[]|e] b2] l2]; cbn [snd] in *; by subst. }
  split; [|split].
  - change (main URL b) with (try_finally (main_body URL) quit b).
    unfold try_finally. pose proof (main_body_closes URL b) as Hshape.
    destruct (main_body URL b) as [[r b1] l]. cbn [snd] in Hshape. rewrite Hend.
    destruct Hshape as [Hcalm | [(pre & -> & Hpre) | (pre & reviews & title & -> & Hpre & HP)]].
    + exists l. split; [done|]. by left.
    + exists pre. split; [done|]. right. left. by rewrite <- app_assoc.
    + exists pre. split; [done|]. right. right. exists reviews, title.
      by rewrite <- app_assoc.
  - intros place_title b6 l cards
      (b1 & l1 & b2 & l2 & n & b3 & l3 & b4 & l4 & b5 & l5 & l6 &
       Hnav & Htitle & Hprobe & Hn & Htab & Hscroll & Hexpand & Hcards & ->).
    split; [by eapply get_place_title_nonempty|].
    unfold main, try_finally, mbind, M_bind.
    rewrite Hnav. cbv beta iota. rewrite Htitle. cbv beta iota.
    unfold print, emit. cbv beta iota. rewrite Hprobe. cbv beta iota.
    replace (truthy_count (Some n)) with true
      by (symmetry; cbn; by apply negb_true_iff, Z.eqb_neq).
    rewrite Htab. cbv beta iota. rewrite Hscroll. cbv beta iota.
    rewrite Hexpand. cbv beta iota.
    rewrite extract_reviews_data_spec, Hcards. cbv beta iota.
    unfold quit, save_reviews_to_file, emit.
    destruct (driver_quit b6) as [[[]|e] b7]; cbv beta iota; cbn [fst].
    + destruct (driver_quit b7) as [[[]|e'] b8]; cbn [snd];
        unfold banner; rewrite <- !app_assoc; reflexivity.
    + destruct (driver_quit b7) as [[[]|e'] b8]; cbn [snd];
        unfold banner; rewrite <- !app_assoc; reflexivity.
  - intros reviews title. change (main URL b) with (try_finally (main_body URL) quit b).
    unfold try_finally. pose proof (main_body_closes URL b) as Hshape.
    destruct (main_body URL b) as [[r b1] l]. cbn [snd] in Hshape. rewrite Hend.
    intros Hin. apply in_app_iff in Hin as [Hin | [? | []]]; [|done].
    destruct Hshape as [Hcalm | [(pre & -> & Hpre) | (pre & reviews' & title' & -> & Hpre & HP)]].
    + by apply calm_no_save in Hin.
    + apply in_app_iff in Hin as [Hin | [? | []]]; [|done].
      by apply calm_no_save in Hin.
    + apply in_app_iff in Hin as [Hin | [? | [Heq | []]]]; [|done|].
      * by apply calm_no_save in Hin.
      * by injection Heq as <- <-.
Qed.
End MainCloses.

(** On the page that shows "23 reviews": what is handed over is the
    harvest of the cards enumerated after expansion, under the title
    "Cafe". *)
Lemma main_closes_witness :
  ∃ b6 l cards b7,
    pass_to_harvest Scripted.place_url counted_page "Cafe" b6 l cards ∧
    driver_quit b6 = (Ok (), b7) ∧
    [{| date := "2 days ago"; rating := "4/5";
        text := "Great food (Services: Delivery)"; owner := Some "Thanks!" |}]
    = omap (emitted b6) cards.
Proof.
  destruct (main_closes Scripted.place_url counted_page) as (_ & _ & Honly).
  apply Honly. vm_compute. do 23 right. by left.
Defined.

(** ** Splitting and the file names *)

Lemma split_on_no_sep sep s : has_char sep s = false → split_on sep s = [s].
Proof.
  unfold has_char. induction s as [|c s IH]; [done|].
  cbn [list_ascii_of_string existsb split_on].
  intros [Hc Hs]%orb_false_iff. rewrite Hc, (IH Hs). done.
Qed.

Lemma split_on_last sep s t :
  has_char sep t = false →
  ∃ field fields, split_on sep (s +:+ String sep t) = field :: fields ++ [t].
Proof.
  intros Ht. induction s as [|c s (field & fields & IH)].
  - rewrite string_app_nil_l. cbn [split_on]. rewrite bool_decide_eq_true_2 by done.
    rewrite (split_on_no_sep _ _ Ht). by exists "", [].
  - rewrite string_app_cons. cbn [split_on]. rewrite IH.
    destruct (bool_decide (c = sep)).
    + by exists "", (field :: fields).
    + by exists (String c field), fields.
Qed.

Lemma split_on_first sep a b :
  has_char sep a = false →
  first_field (split_on sep (a +:+ String sep b)) = a.
Proof.
  unfold has_char. induction a as [|c a IH].
  - intros _. rewrite string_app_nil_l. cbn [split_on].
    by rewrite bool_decide_eq_true_2.
  - cbn [list_ascii_of_string existsb]. intros [Hc Ha]%orb_false_iff.
    rewrite string_app_cons. cbn [split_on]. rewrite Hc. specialize (IH Ha).
    destruct (split_on sep (a +:+ String sep b)) as [|field fields]; cbn in *;
      by subst.
Qed.

Lemma last_snoc {A} (l : list A) (x d : A) : List.last (l ++ [x]) d = x.
Proof. induction l as [|a [|b l] IH]; done. Qed.

Lemma replace_char_gone old new s :
  old ≠ new → has_char old (replace_char old new s) = false.
Proof.
  intros Hne. unfold has_char. induction s as [|c s IH]; [done|].
  cbn [replace_char list_ascii_of_string existsb]. rewrite IH.
  destruct (bool_decide (c = old)) eqn:Hc.
  - by rewrite bool_decide_eq_false_2.
  - by rewrite Hc.
Qed.

Lemma replace_char_idem old new s :
  old ≠ new → replace_char old new (replace_char old new s) = replace_char old new s.
Proof.
  intros Hne. induction s as [|c s IH]; [done|]. cbn [replace_char]. rewrite IH.
  destruct (bool_decide (c = old)) eqn:Hc; [|by rewrite Hc].
  by rewrite bool_decide_eq_false_2.
Qed.

Lemma has_char_app c s t : has_char c (s +:+ t) = has_char c s || has_char c t.
Proof. unfold has_char. by rewrite list_ascii_of_string_app, existsb_app. Qed.

(** X15.  The name of the reviews file never contains a space, and a title and
    its underscored form are written to the same file: "Joe s" and
    "Joe_s" overwrite each other. *)
Theorem reviews_filename_spaces (title : string) :
  has_char " " (reviews_filename title) = false ∧
  reviews_filename (replace_char " " "_" title) = reviews_filename title.
Proof.
  unfold reviews_filename. split.
  - rewrite has_char_app, replace_char_gone by done. done.
  - by rewrite replace_char_idem.
Qed.

(** X16.  The picture that [save_reviews_to_file] hands to the analysis always
    passes the extension check as "png", whatever the title (dots and
    capitals included): the warning about an unsupported format is never
    printed for it. *)
Theorem visual_path_is_png (title : string) :
  checked_format (visual_path title) = (Ok "png", []).
Proof.
  unfold checked_format, visual_path.
  change "_visual.png" with ("_visual" +:+ String "." "png").
  rewrite <- string_app_assoc.
  destruct (split_on_last "." (replace_char " " "_" title +:+ "_visual") "png" eq_refl)
    as (field & fields & ->).
  unfold last_field. rewrite app_comm_cons, last_snoc. done.
Qed.

(** ** The image analysis and the hand-over to the report *)
Section AnalysisFacts.
Context {J : Type}.
Variable read_file : string → file_read.
Variable post : string → payload → post_outcome J.
Variable json_dumps : list ReviewRecord → string.
Variable write_file : string → string → result unit.
Variable visualize : string → string → string → result unit.
Variable message_content : J → result string.
Variable generate_html_report : string → string → string → result unit.

Lemma b64encode_truthy data : data ≠ [] → truthy (b64encode data) = true.
Proof. by destruct data as [|a [|b [|c rest]]]. Qed.

Lemma checked_format_supported image_path :
  ∃ image_format warning,
    checked_format image_path = (Ok image_format, warning) ∧
    image_format ∈ SUPPORTED_FORMATS ∧ Forall (λ st, is_report st = false) warning ∧
    posts warning = [].
Proof.
  unfold checked_format.
  destruct (bool_decide _) eqn:Hfmt.
  - apply bool_decide_eq_true in Hfmt. eexists _, _. split; [done|]. by repeat split.
  - eexists _, _. split; [done|]. split; [|by repeat constructor].
    unfold SUPPORTED_FORMATS. repeat constructor.
Qed.

(** X17.  [analyze_local_image] posts a request only for an image file that
    exists and is not empty, and then exactly one, whose data URL carries
    one of the formats jpeg, jpg, png and the base64 text of the file; the
    answer, a failed request ([None]) or any other fault is what it
    returns.  An empty file gives [None] without a word, a missing file
    gives [None] after one error line, and any other failure to read the
    file is raised. *)
Theorem analysis_needs_image_data (image_path question : string) :
  let run := analyze_local_image read_file post image_path question in
  match read_file image_path with
  | FileData [] => run = (Ok None, [])
  | FileData data =>
      ∃ image_format json,
        image_format ∈ SUPPORTED_FORMATS ∧
        image_url json = "data:image/" +:+ image_format +:+ ";base64," +:+ b64encode data ∧
        question_text json = question ∧
        posts run.2 = [json] ∧
        run.1 = match post POLLINATIONS_URL json with
                | Answer response => Ok (Some response)
                | RequestFailed _ => Ok None
                | PostFault e => Raise e
                end
  | FileNotFound =>
      run = (Ok None, [PPrint ("Error: Image file not found at " +:+ image_path)])
  | FileFault e => run = (Raise e, [])
  end.
Proof.
  intros run. subst run. unfold analyze_local_image, encode_image_base64.
  destruct (read_file image_path) as [[|a rest]| |e]; [done| |done|done].
  cbv [mbind P_bind mret P_ret pprint].
  unfold no_image. rewrite b64encode_truthy by done.
  destruct (checked_format_supported image_path) as (fmt & warning & -> & Hfmt & _ & Hposts).
  cbv beta iota delta [negb default from_option id].
  exists fmt,
    {| model := "openai"; role := "user"; question_text := question;
       image_url := "data:image/" +:+ fmt +:+ ";base64," +:+ b64encode (a :: rest);
       max_tokens := 500 |}.
  split; [done|]. split; [reflexivity|]. split; [reflexivity|].
  destruct (post POLLINATIONS_URL _) as [response|msg|e]; cbn [fst snd app];
    unfold posts in *; rewrite omap_app, Hposts; done.
Qed.

Lemma analysis_writes_no_report image_path question :
  Forall (λ st, is_report st = false)
    (analyze_local_image read_file post image_path question).2.
Proof.
  unfold analyze_local_image, encode_image_base64.
  destruct (read_file image_path) as [data| |e]; [|by repeat constructor|by constructor].
  cbv [mbind P_bind mret P_ret pprint].
  destruct (no_image _); [by constructor|].
  destruct (checked_format_supported image_path) as (fmt & warning & -> & _ & Hw & _).
  cbv beta iota.
  destruct (post POLLINATIONS_URL _) as [response|msg|e]; cbn [fst snd app];
    (apply Forall_app; split; [done|by repeat constructor]).
Qed.

(** X18.  [save_reviews_to_file] writes the report only as its very last step,
    only after the reviews file and the picture were produced, and only
    from the content of an answer the analysis returned.  When the
    analysis returns [None] (image missing or empty, request failed) it
    does not skip the report quietly: reading the content of [None]
    raises [TypeError], after the reviews file was written. *)
Theorem report_needs_an_answer (reviews : list ReviewRecord) (title : string) :
  let run :=
    save_reviews_to_file_body read_file post json_dumps write_file visualize
      message_content generate_html_report reviews title in
  let analysis := analyze_local_image read_file post (visual_path title) DEFAULT_QUESTION in
  (∀ image_path output_html_file markdown_text,
     In (PReport image_path output_html_file markdown_text) run.2 →
     image_path = visual_path title ∧ output_html_file = "report.html" ∧
     (∃ pre, run.2 = pre ++ [PReport image_path output_html_file markdown_text] ∧
             Forall (λ st, is_report st = false) pre) ∧
     write_file (reviews_filename title) (json_dumps reviews) = Ok () ∧
     visualize (reviews_filename title) (visual_path title) "white" = Ok () ∧
     ∃ response, analysis.1 = Ok (Some response) ∧
                 message_content response = Ok markdown_text) ∧
  (write_file (reviews_filename title) (json_dumps reviews) = Ok () →
   visualize (reviews_filename title) (visual_path title) "white" = Ok () →
   analysis.1 = Ok None →
   run.1 = Raise (Exn TypeError "'NoneType' object is not subscriptable") ∧
   Forall (λ st, is_report st = false) run.2 ∧
   hd_error run.2 = Some (PWrite (reviews_filename title) (json_dumps reviews))).
Proof.
  intros run analysis. subst run analysis.
  pose proof (analysis_writes_no_report (visual_path title) DEFAULT_QUESTION) as Hquiet.
  unfold save_reviews_to_file_body, report_markdown.
  cbv [mbind P_bind mret P_ret pprint].
  destruct (write_file _ _) as [[]|e1].
  2:{ split; [|done]. intros i o md [Hin|[]]. discriminate. }
  destruct (visualize _ _ _) as [[]|e2].
  2:{ split; [|done]. cbn [snd app In]. intros i o md Hin.
      decompose [or] Hin; done. }
  destruct (analyze_local_image _ _ _ _) as [[[response|]|e3] la].
  - destruct (message_content response) as [md'|e4] eqn:Hmd.
    + destruct (generate_html_report _ _ _) as [[]|e5]; (split; [|done]).
      all: cbn [fst snd app In]; intros i o md Hin.
      all: repeat (rewrite in_app_iff in Hin; cbn [In] in Hin).
      all: decompose [or] Hin; try done.
      all: try (exfalso; eapply Forall_forall in Hquiet; [|eassumption]; done).
      all: match goal with Heq : PReport _ _ _ = PReport _ _ _ |- _ =>
             injection Heq as <- <- <- end.
      all: split; [done|]; split; [done|]; split; [|by eauto].
      all: eexists (_ :: _ :: _ :: _ :: _ :: _ :: la ++ [_; _]).
      all: split; [cbn [app]; by rewrite <- app_assoc|].
      all: repeat (constructor; [done|]).
      all: apply Forall_app; split; [done|by repeat constructor].
    + split; [|done]. cbn [fst snd app In]. intros i o md Hin.
      repeat (rewrite in_app_iff in Hin; cbn [In] in Hin).
      decompose [or] Hin; try done.
      exfalso; eapply Forall_forall in Hquiet; [|eassumption]; done.
  - split.
    + cbn [fst snd app In]. intros i o md Hin.
      repeat (rewrite in_app_iff in Hin; cbn [In] in Hin).
      decompose [or] Hin; try done.
      exfalso; eapply Forall_forall in Hquiet; [|eassumption]; done.
    + intros _ _ _. cbn [fst snd app]. split; [done|]. split; [|done].
      repeat (constructor; [done|]).
      apply Forall_app; split; [done|by repeat constructor].
  - split; [|done]. cbn [fst snd app In]. intros i o md Hin.
    repeat (rewrite in_app_iff in Hin; cbn [In] in Hin).
    decompose [or] Hin; try done.
    exfalso; eapply Forall_forall in Hquiet; [|eassumption]; done.
Qed.
End AnalysisFacts.

Lemma report_needs_an_answer_witness :
  (save_reviews_to_file_body
     (λ _, FileNotFound) (λ _ _, RequestFailed (J:=string) "offline")
     (λ _, "[]") (λ _ _, Ok ()) (λ _ _ _, Ok ()) (λ response, Ok response)
     (λ _ _ _, Ok ()) [] "Cafe").1
  = Raise (Exn TypeError "'NoneType' object is not subscriptable").
Proof.
  apply (proj2 (report_needs_an_answer
                  (λ _, FileNotFound) (λ _ _, RequestFailed (J:=string) "offline")
                  (λ _, "[]") (λ _ _, Ok ()) (λ _ _ _, Ok ()) (λ response, Ok response)
                  (λ _ _ _, Ok ()) [] "Cafe")); reflexivity.
Defined.

(** ** The parsers of the visualisation *)
Section RatingFacts.
Context {F : Type}.
Variable float : string → option F.

Lemma digits_have_no_slash s : all_digits s = true → has_char "/" s = false.
Proof.
  unfold all_digits, has_char. induction (list_ascii_of_string s) as [|c l IH]; [done|].
  cbn [forallb existsb]. intros [Hc Hl]%andb_true_iff. rewrite (IH Hl).
  destruct (bool_decide (c = "/"%char)) eqn:Heq; [|done].
  apply bool_decide_eq_true in Heq. by subst c.
Qed.

(** X19.  [parse_rating] looks at nothing after the first slash: "4/5" and
    "4/10" parse alike, as what [float] makes of the part before the
    slash, and a rating without a slash is parsed whole. *)
Theorem parse_rating_ignores_denominator (a b : string) :
  has_char "/" a = false →
  parse_rating float (a +:+ "/" +:+ b) = float a ∧
  parse_rating float a = float a.
Proof.
  intros Ha. unfold parse_rating. split.
  - change ("/" +:+ b) with (String "/" b). by rewrite (split_on_first "/" a b Ha).
  - by rewrite (split_on_no_sep "/" a Ha).
Qed.

(** X20.  The rating the extractor builds from the filled stars parses as the
    number of stars counted. *)
Theorem star_rating_parses_as_count (n : nat) :
  parse_rating float (pretty n +:+ "/5") = float (pretty n).
Proof.
  unfold parse_rating. change "/5" with (String "/" "5").
  rewrite split_on_first; [done|]. apply digits_have_no_slash.
  apply (pretty_N_digits (N.of_nat n)).
Qed.
End RatingFacts.

Lemma parse_rating_ignores_denominator_witness :
  parse_rating (λ s, if all_digits s then Some (int_of_digits s) else None) ("4" +:+ "/" +:+ "10")
  = Some 4.
Proof.
  by apply (parse_rating_ignores_denominator
              (λ s, if all_digits s then Some (int_of_digits s) else None) "4" "10").
Defined.

Lemma lstrip_spaces_app ws d : all_spaces ws = true → lstrip (ws +:+ d) = lstrip d.
Proof.
  unfold all_spaces. induction ws as [|c ws IH]; [done|].
  cbn [list_ascii_of_string forallb]. intros [Hc Hws]%andb_true_iff.
  rewrite string_app_cons. cbn [lstrip]. rewrite Hc. by apply IH.
Qed.

Lemma string_snoc_inj s t a c : s +:+ String a "" = t +:+ String c "" → a = c.
Proof.
  intros Heq. apply (f_equal String.rev) in Heq. rewrite !string_rev_app in Heq.
  by injection Heq.
Qed.

Lemma clean_date_drops_marker (ws d : string) :
  trimmed d → d ≠ "" → all_spaces ws = true → ws ≠ "" →
  clean_date ("Edited" +:+ ws +:+ d) = d ∧
  (starts_with "Edited" d = false → clean_date d = d).
Proof.
  intros [Hhead Hlast] Hne Hws Hwsne. split.
  - unfold clean_date. rewrite strip_id.
    + unfold drop_edited. rewrite starts_with_app.
      rewrite !string_app_cons, string_app_nil_l. cbn [drop_chars].
      destruct ws as [|c ws]; [done|]. rewrite string_app_cons.
      pose proof Hws as Hws'. unfold all_spaces in Hws'.
      cbn [list_ascii_of_string forallb] in Hws'.
      apply andb_true_iff in Hws' as [Hc _]. rewrite Hc.
      rewrite <- string_app_cons, lstrip_spaces_app by done. by apply lstrip_id.
    + split; [by intros c t [= <- _]|].
      intros t c Heq. destruct (string_snoc_or_empty d) as [-> | (d' & c' & ->)]; [done|].
      rewrite <- !string_app_assoc in Heq. apply string_snoc_inj in Heq as <-.
      by apply (Hlast d').
  - intros Hplain. unfold clean_date. rewrite strip_id by done.
    unfold drop_edited. by rewrite Hplain.
Qed.

Lemma trimmed_2_days_ago : trimmed "2 days ago".
Proof.
  split; [by intros c t [= <- _]|].
  intros t c Heq. apply (f_equal String.rev) in Heq. rewrite string_rev_app in Heq.
  by injection Heq as <- _.
Qed.

Section RelativeDateFacts.
Context {D T : Type}.
Variable dateparser_parse : string → option D.
Variable to_datetime : D → T.

(** X21.  On dates as the harvester emits them (trimmed, not empty), an
    "Edited" marker makes no difference to [parse_relative_date]: the
    marker and the whitespace after it are removed before the date is
    parsed, so the edited and the plain date give the same result. *)
Theorem edited_date_parses_like_plain (ws d : string) :
  trimmed d → d ≠ "" → all_spaces ws = true → ws ≠ "" →
  starts_with "Edited" d = false →
  parse_relative_date dateparser_parse to_datetime ("Edited" +:+ ws +:+ d)
  = parse_relative_date dateparser_parse to_datetime d ∧
  parse_relative_date dateparser_parse to_datetime d
  = to_datetime <$> dateparser_parse d.
Proof.
  intros Htrim Hne Hws Hwsne Hplain. unfold parse_relative_date.
  destruct (clean_date_drops_marker ws d Htrim Hne Hws Hwsne) as [-> Hd].
  by rewrite (Hd Hplain).
Qed.
End RelativeDateFacts.

Lemma edited_date_parses_like_plain_witness :
  parse_relative_date (λ s, if bool_decide (s = "2 days ago") then Some 2%nat else None)
    (λ days, days) ("Edited" +:+ " " +:+ "2 days ago")
  = Some 2%nat.
Proof.
  rewrite (proj1 (edited_date_parses_like_plain
                    (λ s, if bool_decide (s = "2 days ago") then Some 2%nat else None)
                    (λ days, days) " " "2 days ago" trimmed_2_days_ago
                    ltac:(discriminate) eq_refl ltac:(discriminate) eq_refl)).
  reflexivity.
Defined.

(** ** The listing *)
Section ListingFacts.
Context {B E : Type} `{Browser B E}.
Implicit Types (b : B).

Local Abbreviation numbered_lines :=
  (λ (n : nat) (review : ReviewRecord),
     [pretty n +:+ ". Date:   " +:+ date review;
      "   Rating: " +:+ rating review;
      "   Review: " +:+ text review]
     ++ match owner review with
        | Some reply => if truthy reply then ["   Owner:  " +:+ reply] else []
        | None => []
        end
     ++ [DASH_RULE]).

Lemma display_loop_spec (reviews_data : list ReviewRecord) : ∀ idx b,
  display_loop (E:=E) idx reviews_data b
  = (Ok (), b,
     map EvPrint (concat (imap (λ i, numbered_lines (idx + i)%nat) reviews_data))).
Proof.
  induction reviews_data as [|review rest IH]; intros idx b; [done|].
  cbn [display_loop imap concat].
  rewrite (imap_ext _ (λ i, numbered_lines (S idx + i)%nat) rest).
  2:{ intros i x _. cbn [compose]. by replace (idx + S i)%nat with (S idx + i)%nat by lia. }
  rewrite Nat.add_0_r. cbv [mbind M_bind print emit]. unfold has_reply.
  destruct (owner review) as [reply|]; [destruct (truthy reply)|];
    cbv [mret M_ret]; rewrite (IH (S idx)); reflexivity.
Qed.

Lemma numbered_lines_count (reviews_data : list ReviewRecord) : ∀ idx,
  length (concat (imap (λ i, numbered_lines (idx + i)%nat) reviews_data))
  = (4 * length reviews_data + length (List.filter has_reply reviews_data))%nat.
Proof.
  induction reviews_data as [|review rest IH]; intros idx; [done|].
  cbn [imap concat List.filter].
  rewrite (imap_ext _ (λ i, numbered_lines (S idx + i)%nat) rest).
  2:{ intros i x _. cbn [compose]. by replace (idx + S i)%nat with (S idx + i)%nat by lia. }
  rewrite length_app, IH. unfold has_reply.
  destruct (owner review) as [reply|]; [destruct (truthy reply)|]; cbn [length app]; lia.
Qed.

(** X22.  [display_reviews] only prints and never fails.  For the review at
    position [i] (from 0) it prints, in this order, the date line
    numbered [i + 1], the rating line and the review line, then the
    owner line with the reply when the reply is present and not empty,
    then the rule of 60 dashes; the reviews follow one another in the
    order of the list.  That makes four lines for every review and one
    more for exactly the reviews with a reply. *)
Theorem display_reviews_lines (reviews_data : list ReviewRecord) b :
  let lines_of (i : nat) (review : ReviewRecord) :=
    [pretty (S i) +:+ ". Date:   " +:+ date review;
     "   Rating: " +:+ rating review;
     "   Review: " +:+ text review]
    ++ match owner review with
       | Some reply => if truthy reply then ["   Owner:  " +:+ reply] else []
       | None => []
       end
    ++ [DASH_RULE] in
  let lines := concat (imap lines_of reviews_data) in
  display_reviews (E:=E) reviews_data b = (Ok (), b, map EvPrint lines) ∧
  length lines
  = (4 * length reviews_data + length (List.filter has_reply reviews_data))%nat ∧
  String.length DASH_RULE = 60%nat.
Proof.
  intros lines_of lines. split; [|split; [|reflexivity]].
  - unfold display_reviews. apply display_loop_spec.
  - apply (numbered_lines_count reviews_data 1).
Qed.
End ListingFacts.

(** ** The advertisement filter of the report *)

Lemma drop_chars_app pre rest : drop_chars (String.length pre) (pre +:+ rest) = rest.
Proof.
  induction pre as [|c pre IH]; [by destruct rest|].
  rewrite string_app_cons. cbn [String.length drop_chars]. apply IH.
Qed.

Lemma cut_ad_spec s : ∀ line_start,
  ∃ kept dropped,
    s = kept +:+ dropped ∧ cut_ad line_start s = kept ∧
    (dropped = "" ∨
     (∃ rest, dropped = AD_HEADER +:+ rest ∧ str_find rest "pollinations.ai" ≠ -1) ∧
     (kept = "" ∧ line_start = true ∨ ∃ k, kept = k +:+ NL)).
Proof.
  induction s as [|c s IH]; intros line_start.
  - cbn [cut_ad]. destruct (_ && _ && _); exists "", ""; by repeat split; left.
  - cbn [cut_ad].
    destruct (line_start && starts_with AD_HEADER (String c s)
              && occurs "pollinations.ai"
                   (drop_chars (String.length AD_HEADER) (String c s))) eqn:Hmatch.
    + apply andb_true_iff in Hmatch as [[-> Hhead]%andb_true_iff Hocc].
      apply starts_with_inv in Hhead as [rest Hrest].
      exists "", (String c s). split; [done|]. split; [done|]. right.
      split; [|by left]. exists rest. split; [done|].
      rewrite Hrest, drop_chars_app in Hocc. unfold occurs in Hocc.
      apply negb_true_iff, Z.eqb_neq in Hocc. done.
    + destruct (IH (bool_decide (c = ascii_of_nat 10)))
        as (kept & dropped & -> & -> & Hdropped).
      exists (String c kept), dropped. split; [done|]. split; [done|].
      destruct Hdropped as [-> | [Hrest Hline]]; [by left|]. right. split; [done|].
      right. destruct Hline as [[-> Hc] | [k ->]].
      * apply bool_decide_eq_true in Hc as ->. by exists "".
      * by exists (String c k).
Qed.

Lemma cut_ad_unfold line_start s :
  cut_ad line_start s =
    if line_start && starts_with AD_HEADER s
       && occurs "pollinations.ai" (drop_chars (String.length AD_HEADER) s)
    then ""
    else match s with
         | "" => ""
         | String c s' => String c (cut_ad (bool_decide (c = ascii_of_nat 10)) s')
         end.
Proof. by destruct s. Qed.

(** What is kept ends no later than any header that starts a line and has
    "pollinations.ai" behind it. *)
Lemma cut_ad_leftmost pre : ∀ line_start rest,
  (pre = "" ∧ line_start = true ∨ ∃ k, pre = k +:+ NL) →
  str_find rest "pollinations.ai" ≠ -1 →
  ∃ cut, pre = cut_ad line_start (pre +:+ AD_HEADER +:+ rest) +:+ cut.
Proof.
  induction pre as [|c pre IH]; intros line_start rest Hline Hocc.
  - destruct Hline as [[_ ->] | [k Hk]]; [|by destruct k].
    exists "". rewrite cut_ad_unfold, string_app_nil_l.
    rewrite starts_with_app, drop_chars_app. unfold occurs.
    by replace (str_find rest "pollinations.ai" =? -1) with false
      by (symmetry; by apply Z.eqb_neq).
  - rewrite string_app_cons, cut_ad_unfold.
    destruct (_ && _ && _); [by exists (String c pre)|].
    destruct (IH (bool_decide (c = ascii_of_nat 10)) rest) as [cut Hcut]; [|done|].
    + destruct Hline as [[? _] | [k Hk]]; [done|].
      destruct k as [|c' k].
      * injection Hk as -> ->. left. by rewrite bool_decide_eq_true_2.
      * rewrite string_app_cons in Hk. injection Hk as _ ->. right. by exists k.
    + exists cut. by rewrite string_app_cons, <- Hcut.
Qed.

(** X23.  [remove_pollinations_ad] removes a tail of the text and strips what
    stays.  The tail is empty, or it begins with an advertisement
    header that starts a line and has "pollinations.ai" somewhere behind
    it.  What stays ends no later than any such header: wherever the
    text has one, everything from it to the end of the text goes, the
    advertisement and whatever comes after it, so the cut is at the
    first such header. *)
Theorem ad_removal_cuts_a_tail (md_text : string) :
  ∃ kept dropped,
    md_text = kept +:+ dropped ∧
    remove_pollinations_ad md_text = strip kept ∧
    (dropped = "" ∨
     (∃ rest, dropped = AD_HEADER +:+ rest ∧ str_find rest "pollinations.ai" ≠ -1) ∧
     (kept = "" ∨ ∃ k, kept = k +:+ NL)) ∧
    (∀ pre rest,
       md_text = pre +:+ AD_HEADER +:+ rest →
       pre = "" ∨ (∃ k, pre = k +:+ NL) →
       str_find rest "pollinations.ai" ≠ -1 →
       ∃ cut, pre = kept +:+ cut ∧ dropped = cut +:+ AD_HEADER +:+ rest).
Proof.
  destruct (cut_ad_spec md_text true) as (kept & dropped & Htext & Hcut & Hdropped).
  exists kept, dropped. split; [done|]. unfold remove_pollinations_ad.
  rewrite Hcut. split; [done|]. split.
  { destruct Hdropped as [-> | [Hrest [[-> _] | Hk]]]; [by left|right..]; split; auto. }
  intros pre rest Hpre Hline Hocc.
  destruct (cut_ad_leftmost pre true rest) as [cut Hpos]; [|done|].
  { destruct Hline as [-> | Hk]; [by left|by right]. }
  rewrite <- Hpre, Hcut in Hpos. exists cut. split; [done|].
  rewrite Htext, Hpos, string_app_assoc in Hpre at 1.
  by apply (inj (String.app kept)) in Hpre.
Qed.

(** An advertisement with a postscript behind it: both go. *)
Lemma ad_removed_with_what_follows :
  remove_pollinations_ad
    ("Worth a visit: 8/10." +:+ NL +:+ AD_HEADER
     +:+ "Powered by pollinations.ai" +:+ NL +:+ "A postscript.")
  = "Worth a visit: 8/10.".
Proof. reflexivity. Qed.

Lemma cut_ad_without_label s : ∀ line_start,
  (∀ pre post, s ≠ pre +:+ "**Support Pollinations.AI:**" +:+ post) →
  cut_ad line_start s = s.
Proof.
  induction s as [|c s IH]; intros line_start Habsent.
  - cbn [cut_ad]. by destruct (_ && _ && _).
  - cbn [cut_ad].
    destruct (starts_with AD_HEADER (String c s)) eqn:Hhead.
    + exfalso. apply starts_with_inv in Hhead as [rest Hrest].
      apply (Habsent ("---" +:+ NL +:+ NL) (NL +:+ rest)). rewrite Hrest.
      unfold AD_HEADER. by rewrite !string_app_assoc.
    + rewrite andb_false_r. cbn [andb]. rewrite IH; [done|].
      intros pre post Heq. apply (Habsent (String c pre) post).
      by rewrite string_app_cons, Heq.
Qed.

(** X24.  A text in which the label "**Support Pollinations.AI:**" does not
    occur is only stripped. *)
Theorem ad_free_text_is_only_stripped (md_text : string) :
  str_find md_text "**Support Pollinations.AI:**" = -1 →
  remove_pollinations_ad md_text = strip md_text.
Proof.
  intros Habsent. unfold remove_pollinations_ad.
  rewrite cut_ad_without_label; [done|]. by eapply find_from_absent.
Qed.

Lemma ad_free_text_is_only_stripped_witness :
  remove_pollinations_ad ("  The place is **worth** a visit: 8/10. " +:+ NL)
  = "The place is **worth** a visit: 8/10.".
Proof.
  rewrite ad_free_text_is_only_stripped; reflexivity.
Defined.

(** ** When the harvest happens *)
Section HarvestNeedsCount.
Context {B E : Type} `{Browser B E}.
Implicit Types (b : B) (l : list (event E)).

Lemma get_total_reviews_nonneg b n b2 l :
  get_total_reviews b = (Ok (Some n), b2, l) → 0 ≤ n.
Proof.
  unfold get_total_reviews, try_except_only, try_except. rewrite !bind_run.
  destruct (read_count REVIEWS_COUNT_XPATH b) as [[[k|e1] b1] l1] eqn:H1.
  { intros [= <- _ _]. by eapply read_count_nonneg. }
  rewrite bind_run.
  destruct (read_count REVIEWS_COUNT_XPATH2 b1) as [[[k|e2] b3] l2] eqn:H2.
  { intros [= <- _ _]. by eapply read_count_nonneg. }
  by destruct (bool_decide _).
Qed.

Lemma quiet_not_seen l :
  Forall (λ ev, harvest_step ev = false) l →
  ¬ Exists (λ ev, harvest_step ev = true) l.
Proof.
  intros Hquiet (ev & Hin & Hev)%Exists_exists.
  eapply Forall_forall in Hquiet; [|done]. congruence.
Qed.

(** X25.  Tab activation, scrolling, text expansion, extraction and the
    hand-off happen only in a pass whose navigation succeeded and whose
    probe returned a count of at least 1: a run of [main] that shows any
    of their events has such a count behind it. *)
Theorem harvest_only_after_positive_count URL b :
  Exists (λ ev, harvest_step ev = true) (main URL b).2 →
  ∃ b1 l1 place_title b2 l2 n b3 l3,
    navigate_to_url URL b = (Ok (), b1, l1) ∧
    get_place_title b1 = (Ok place_title, b2, l2) ∧
    get_total_reviews b2 = (Ok (Some n), b3, l3) ∧
    1 ≤ n.
Proof.
  intros Hseen.
  destruct (navigate_to_url URL b) as [[[[]|e] b1] l1] eqn:Hnav.
  2:{ exfalso. revert Hseen. apply quiet_not_seen.
      pose proof (navigate_quiet URL b) as Q1. rewrite Hnav in Q1.
      unfold main, try_finally. rewrite bind_run, Hnav. unfold quit.
      destruct (driver_quit b1) as [[[]|e'] b2]; cbn [snd] in *;
        (apply Forall_app; split; [done|by repeat constructor]). }
  destruct (get_place_title_returns b1) as (place_title & b2 & l2 & Htitle).
  destruct (get_total_reviews b2) as [[[total_reviews|e] b3] l3] eqn:Hprobe.
  - destruct (truthy_count total_reviews) eqn:Htruthy.
    + destruct total_reviews as [n|]; [|done].
      exists b1, l1, place_title, b2, l2, n, b3, l3. repeat split; try done.
      pose proof (get_total_reviews_nonneg _ _ _ _ Hprobe).
      cbn in Htruthy. apply negb_true_iff, Z.eqb_neq in Htruthy. lia.
    + exfalso. revert Hseen. apply quiet_not_seen.
      by eapply (main_no_count URL b).
  - exfalso. revert Hseen. apply quiet_not_seen.
    pose proof (navigate_quiet URL b) as Q1. rewrite Hnav in Q1.
    pose proof (get_place_title_quiet b1) as Q2. rewrite Htitle in Q2.
    pose proof (get_total_reviews_quiet b2) as Q3. rewrite Hprobe in Q3.
    unfold main, try_finally, mbind, M_bind.
    rewrite Hnav. cbv beta iota. rewrite Htitle. cbv beta iota.
    unfold print, emit. cbv beta iota. rewrite Hprobe. cbv beta iota. unfold quit.
    destruct (driver_quit b3) as [[[]|e'] b4]; cbn [snd] in *;
      repeat (apply Forall_app; split); try done; repeat constructor.
Qed.
End HarvestNeedsCount.

Lemma harvest_only_after_positive_count_witness :
  ∃ n b l, get_total_reviews counted_page = (Ok (Some n), b, l) ∧ 1 ≤ n.
Proof.
  destruct (harvest_only_after_positive_count Scripted.place_url counted_page)
    as (b1 & l1 & place_title & b2 & l2 & n & b3 & l3 & Hnav & Htitle & Hprobe & Hn).
  { vm_compute. do 10 apply Exists_cons_tl. by apply Exists_cons_hd. }
  assert (b2 = counted_page) as ->.
  { vm_compute in Hnav. injection Hnav as <- _. vm_compute in Htitle.
    by injection Htitle as _ <- _. }
  by exists n, b3, l3.
Defined.

(** A whole pass on the counted page: the one complete card is saved
    under the title read from the page, between two quits. *)
Example full_pass_on_counted_page :
  ∃ pre,
    (main Scripted.place_url counted_page).2
    = pre ++ [EvQuit;
              EvSave [{| date := "2 days ago"; rating := "4/5";
                         text := "Great food (Services: Delivery)";
                         owner := Some "Thanks!" |}] "Cafe";
              EvQuit] ∧
    length pre = 22%nat.
Proof. eexists (take 22 (main Scripted.place_url counted_page).2). by vm_compute. Qed.
